(** * Visitor-logging backend (src/app.py): shallow embedding and properties

    The Flask application of [src/app.py] is embedded function by function.

    - Strings are Rocq [string]s.  The characters of header strings are
      read as Latin-1 code points, the range of WSGI header values, which
      is what [str.lower] needs; form fields are only copied and compared.
    - Python dictionaries used as maps ([request.environ], [request.form],
      [session]) are [gmap]s; dictionaries whose key order is observed (the
      CSV rows, the JSON objects) are association lists.
    - The two tables are lists of rows in insertion order.  The SQLAlchemy
      session is a list of objects added and not yet flushed; it lives for
      one request.
    - Handlers run in a state-and-exception monad.  What the code cannot
      decide is read from an environment: whether the storage engine raises
      on a given operation, the identifiers [uuid.uuid4()] returns, the
      clock.  Query results follow SQLite, the engine of the default
      configuration.  Where SQL leaves the order of equal keys open the
      model keeps table order, which an engine need not do: the properties
      below are stated up to that order.
    - The framework is modelled as far as the handlers depend on it: the
      [before_request] hook runs before the view and also when no route
      matches, GET routes answer HEAD, every route answers OPTIONS by
      itself, the static route exists.  Whether a template renders and
      whether a static file exists is read from the environment; the
      redirects of the URL map are not modelled. *)

From Stdlib Require Import ZArith Ascii String List Bool Lia DecimalString.
From stdpp Require Import base option list gmap strings.

Local Open Scope string_scope.
Local Open Scope Z_scope.
Local Open Scope list_scope.

(** ** Python string operations *)

Module Py.

(** [str.lower] on Latin-1 code points: A-Z, and the accented capitals
    0xC0-0xDE except the multiplication sign 0xD7, move up by 0x20. *)
Definition lower_char (c : ascii) : ascii :=
  let n := N_of_ascii c in
  if ((65 <=? n) && (n <=? 90))%N then ascii_of_N (n + 32)
  else if ((192 <=? n) && (n <=? 222) && negb (n =? 215))%N then ascii_of_N (n + 32)
  else c.

Fixpoint lower (s : string) : string :=
  match s with
  | EmptyString => EmptyString
  | String c t => String (lower_char c) (lower t)
  end.

(** [s.startswith(p)] *)
Fixpoint startswith (s p : string) : bool :=
  match p, s with
  | EmptyString, _ => true
  | String _ _, EmptyString => false
  | String a p', String b s' => if Ascii.eqb a b then startswith s' p' else false
  end.

(** [needle in hay] for strings *)
Fixpoint str_in (needle hay : string) : bool :=
  startswith hay needle ||
  match hay with
  | EmptyString => false
  | String _ t => str_in needle t
  end.

(** [s.split(sep)] for a one-character separator; never the empty list. *)
Fixpoint split (sep : ascii) (s : string) : list string :=
  match s with
  | EmptyString => [EmptyString]
  | String c t =>
      if Ascii.eqb c sep then EmptyString :: split sep t
      else match split sep t with
           | h :: r => String c h :: r
           | [] => [String c EmptyString]
           end
  end.

(** Truth value of a string: the empty string is falsy. *)
Definition truthy (s : string) : bool :=
  match s with EmptyString => false | String _ _ => true end.

(** Truth value of [d.get(k)]: [None] and the empty string are falsy. *)
Definition truthy_opt (o : option string) : bool :=
  match o with Some s => truthy s | None => false end.

(** [str(n)] for an integer *)
Definition str_of_Z (n : Z) : string := NilZero.string_of_int (Z.to_int n).

(** [sep.join(l)] *)
Fixpoint join (sep : string) (l : list string) : string :=
  match l with
  | [] => EmptyString
  | [x] => x
  | x :: r => x +:+ sep +:+ join sep r
  end.

End Py.

(** ** The inbound request *)

Module request.
Record t := mk {
    path : string;                    (* request.path *)
    method : string;                  (* request.method *)
    host : string;                    (* request.host *)
    environ : gmap string string;     (* request.environ, the WSGI environment *)
    form : gmap string string         (* request.form *)
  }.
  (** [request.headers.get('User-Agent', '')] reads the WSGI key. *)
Definition user_agent (r : t) : string :=
    default "" (environ r !! "HTTP_USER_AGENT").
  (** [request.referrer] *)
Definition referrer (r : t) : option string :=
    environ r !! "HTTP_REFERER".
End request.

(** ** Request Context Reader and User-Agent Classifier *)

Definition comma : ascii := ascii_of_nat 44.

(** [get_client_ip] (app.py:50-57) *)
Definition get_client_ip (r : request.t) : string :=
  let env := request.environ r in
  if Py.truthy_opt (env !! "HTTP_X_FORWARDED_FOR") then
    match env !! "HTTP_X_FORWARDED_FOR" with
    | Some v => default "" (head (Py.split comma v))
    | None => ""
    end
  else if Py.truthy_opt (env !! "HTTP_X_REAL_IP") then
    default "" (env !! "HTTP_X_REAL_IP")
  else
    default "Unknown" (env !! "REMOTE_ADDR").

(** [parse_user_agent] (app.py:59-89) *)
Definition parse_user_agent (user_agent_string : string) : string * string :=
  let ua := if Py.truthy user_agent_string then Py.lower user_agent_string else "" in
  let browser :=
    if Py.str_in "chrome" ua then "Chrome"
    else if Py.str_in "firefox" ua then "Firefox"
    else if Py.str_in "safari" ua then "Safari"
    else if Py.str_in "edge" ua then "Edge"
    else "Unknown" in
  let platform :=
    if Py.str_in "windows" ua then "Windows"
    else if Py.str_in "mac" ua then "macOS"
    else if Py.str_in "linux" ua then "Linux"
    else if Py.str_in "android" ua then "Android"
    else if Py.str_in "iphone" ua || Py.str_in "ipad" ua then "iOS"
    else "Unknown" in
  (browser, platform).

(** ** Data model (app.py:25-48) *)

Module Visitor.
  (** A stored row; nullable columns are options. *)
Record t := mk {
    id : Z;
    session_id : string;
    ip_address : string;
    user_agent : option string;
    timestamp : Z;                 (* microseconds since the epoch, UTC *)
    page : string;
    action : option string;
    referrer : option string;
    host : option string;
    method : option string;
    platform : option string;
    browser : option string;
    country : option string;
    city : option string
  }.
End Visitor.

Module ContactMessage.
Record t := mk {
    id : Z;
    name : string;
    email : string;
    message : string;
    ip_address : string;
    timestamp : Z;
    read : bool
  }.
End ContactMessage.

(** Objects built by the model constructors and not yet flushed: the
    keyword arguments the code passes.  [id], [timestamp], [read] and the
    columns never passed are filled in by the flush. *)
Inductive entity :=
| NewVisitor (session_id ip_address : string) (user_agent : option string)
    (page : string) (action referrer host method platform browser : option string)
| NewContactMessage (name email message : option string) (ip_address : string).

(** ** Environment, storage and request-scoped state *)

(** What the handlers cannot decide: whether the storage engine raises on
    its n-th operation (and with which text), the values [uuid.uuid4()] and
    the clock return, the offset of local time, whether a template of the
    templates folder fails to load or render (and with which text), and
    which files the static folder holds. *)
Record env := {
  fault_at : nat -> option string;
  uuid_at : nat -> string;
  utcnow_at : nat -> Z;
  utc_offset : Z;
  template_fault : string -> option string;
  static_exists : string -> bool
}.

Record world := mkWorld {
  visitor_tbl : list Visitor.t;          (* in insertion order *)
  contact_tbl : list ContactMessage.t;
  db_ops : nat;                          (* engine operations attempted *)
  uuid_draws : nat;
  clock_reads : nat;
  app_log : list (string * string)       (* app.logger: (level, text) *)
}.

Record state := mkState {
  st_world : world;
  st_pending : list entity;              (* db.session: added, not flushed *)
  st_session : gmap string string        (* flask.session *)
}.

Inductive exn :=
| OperationalError (msg : string)        (* the engine refused the operation *)
| IntegrityError (msg : string)          (* NOT NULL constraint failed *)
| ValueError (msg : string)
| TemplateError (msg : string).          (* jinja2: template missing or not rendering *)

Definition exn_str (e : exn) : string :=
  match e with
  | OperationalError m | IntegrityError m | ValueError m | TemplateError m => m
  end.

Inductive outcome (A : Type) :=
| Ok (a : A)
| Raise (e : exn).
Arguments Ok {A} a.
Arguments Raise {A} e.

(** Handler code: reads the environment and the request, updates the
    state, returns or raises.  State changes made before a raise persist. *)
Definition M (A : Type) : Type := env -> request.t -> state -> outcome A * state.

Definition ret {A} (a : A) : M A := fun _ _ st => (Ok a, st).

Definition bind {A B} (m : M A) (k : A -> M B) : M B :=
  fun E r st =>
    match m E r st with
    | (Ok a, st') => k a E r st'
    | (Raise e, st') => (Raise e, st')
    end.

Definition raise {A} (e : exn) : M A := fun _ _ st => (Raise e, st).

(** [try: body  except Exception as e: handler e] *)
Definition try_except {A} (body : M A) (handler : exn -> M A) : M A :=
  fun E r st =>
    match body E r st with
    | (Ok a, st') => (Ok a, st')
    | (Raise e, st') => handler e E r st'
    end.

Declare Scope py_scope.
Delimit Scope py_scope with py.
Notation "x <- m ;; k" := (bind m (fun x => k))
  (at level 100, m at next level, right associativity) : py_scope.
Notation "m ;;; k" := (bind m (fun _ => k))
  (at level 100, right associativity) : py_scope.

Definition the_request : M request.t := fun _ r st => (Ok r, st).

Definition set_world (w : world) (st : state) : state :=
  mkState w (st_pending st) (st_session st).
Definition set_pending (p : list entity) (st : state) : state :=
  mkState (st_world st) p (st_session st).
Definition set_session (s : gmap string string) (st : state) : state :=
  mkState (st_world st) (st_pending st) s.

Definition tick_db (w : world) : world :=
  mkWorld (visitor_tbl w) (contact_tbl w) (S (db_ops w)) (uuid_draws w) (clock_reads w) (app_log w).
Definition tick_uuid (w : world) : world :=
  mkWorld (visitor_tbl w) (contact_tbl w) (db_ops w) (S (uuid_draws w)) (clock_reads w) (app_log w).
Definition tick_clock (w : world) : world :=
  mkWorld (visitor_tbl w) (contact_tbl w) (db_ops w) (uuid_draws w) (S (clock_reads w)) (app_log w).
Definition add_log (line : string * string) (w : world) : world :=
  mkWorld (visitor_tbl w) (contact_tbl w) (db_ops w) (uuid_draws w) (clock_reads w) (app_log w ++ [line]).
Definition put_visitor (v : Visitor.t) (w : world) : world :=
  mkWorld (visitor_tbl w ++ [v]) (contact_tbl w) (db_ops w) (uuid_draws w) (clock_reads w) (app_log w).
Definition put_contact (c : ContactMessage.t) (w : world) : world :=
  mkWorld (visitor_tbl w) (contact_tbl w ++ [c]) (db_ops w) (uuid_draws w) (clock_reads w) (app_log w).

(** [str(uuid.uuid4())] *)
Definition uuid4 : M string :=
  fun E _ st => (Ok (uuid_at E (uuid_draws (st_world st))), set_world (tick_uuid (st_world st)) st).

(** [app.logger.info] / [app.logger.error] *)
Definition logger (level text : string) : M unit :=
  fun _ _ st => (Ok tt, set_world (add_log (level, text) (st_world st)) st).

(** [session.get(k)], [session[k] = v] *)
Definition session_get (k : string) : M (option string) :=
  fun _ _ st => (Ok (st_session st !! k), st).
Definition session_set (k v : string) : M unit :=
  fun _ _ st => (Ok tt, set_session (<[k:=v]> (st_session st)) st).

(** *** The unit of work *)

(** Next value of an integer primary key: one more than the largest. *)
Definition next_id (ids : list Z) : Z := 1 + fold_right Z.max 0 ids.

(** INSERT of one object: column defaults ([timestamp]: the clock; [read]:
    false), NOT NULL checks on the columns declared [nullable=False]. *)
Definition insert_row (E : env) (x : entity) (w : world) : exn + world :=
  match x with
  | NewVisitor sid ip ua pg act ref hst mth plat brw =>
      let now := utcnow_at E (clock_reads w) in
      let row := Visitor.mk (next_id (map Visitor.id (visitor_tbl w))) sid ip ua now
                   pg act ref hst mth plat brw None None in
      inr (put_visitor row (tick_clock w))
  | NewContactMessage (Some nm) (Some em) (Some msg) ip =>
      let now := utcnow_at E (clock_reads w) in
      let row := ContactMessage.mk (next_id (map ContactMessage.id (contact_tbl w)))
                   nm em msg ip now false in
      inr (put_contact row (tick_clock w))
  | NewContactMessage _ _ _ _ =>
      inl (IntegrityError "NOT NULL constraint failed")
  end.

Fixpoint flush (E : env) (xs : list entity) (w : world) : exn + world :=
  match xs with
  | [] => inr w
  | x :: rest =>
      match insert_row E x w with
      | inl e => inl e
      | inr w' => flush E rest w'
      end
  end.

(** [db.session.add(obj)] *)
Definition db_add (x : entity) : M unit :=
  fun _ _ st => (Ok tt, set_pending (st_pending st ++ [x]) st).

(** [db.session.commit()]: all pending objects are written, or none. *)
Definition db_commit : M unit :=
  fun E _ st =>
    let w := st_world st in
    match fault_at E (db_ops w) with
    | Some msg => (Raise (OperationalError msg), set_world (tick_db w) st)
    | None =>
        match flush E (st_pending st) (tick_db w) with
        | inl e => (Raise e, set_world (tick_db w) st)
        | inr w' => (Ok tt, set_pending [] (set_world w' st))
        end
    end.

(** [db.session.rollback()] *)
Definition db_rollback : M unit :=
  fun _ _ st => (Ok tt, set_pending [] st).

(** A read query: evaluated on the tables unless the engine raises. *)
Definition db_query {A} (q : world -> A) : M A :=
  fun E _ st =>
    let w := st_world st in
    match fault_at E (db_ops w) with
    | Some msg => (Raise (OperationalError msg), set_world (tick_db w) st)
    | None => (Ok (q w), set_world (tick_db w) st)
    end.

(** ** Dates *)

Module datetime.

Definition us_per_second : Z := 1000000.
Definition us_per_day : Z := 86400 * us_per_second.

(** Gregorian date of a day number counted from 1970-01-01. *)
Definition civil_from_days (z : Z) : Z * Z * Z :=
  let z := z + 719468 in
  let era := z / 146097 in
  let doe := z - era * 146097 in
  let yoe := (doe - doe / 1460 + doe / 36524 - doe / 146096) / 365 in
  let doy := doe - (365 * yoe + yoe / 4 - yoe / 100) in
  let mp := (5 * doy + 2) / 153 in
  let d := doy - (153 * mp + 2) / 5 + 1 in
  let m := if mp <? 10 then mp + 3 else mp - 9 in
  let y := yoe + era * 400 + (if m <=? 2 then 1 else 0) in
  (y, m, d).

Definition hour (t : Z) : Z := (t mod us_per_day) / (3600 * us_per_second).
Definition minute (t : Z) : Z := (t mod (3600 * us_per_second)) / (60 * us_per_second).
Definition second (t : Z) : Z := (t mod (60 * us_per_second)) / us_per_second.
Definition microsecond (t : Z) : Z := t mod us_per_second.

Fixpoint zeros (n : nat) : string :=
  match n with O => EmptyString | S k => String "0" (zeros k) end.

(** ["%0<w>d"] for a non-negative number *)
Definition pad (w : nat) (n : Z) : string :=
  let s := Py.str_of_Z n in
  zeros (w - String.length s) +:+ s.

(** [t.isoformat()] for a naive datetime *)
Definition isoformat (t : Z) : string :=
  let '(y, m, d) := civil_from_days (t / us_per_day) in
  pad 4 y +:+ "-" +:+ pad 2 m +:+ "-" +:+ pad 2 d +:+ "T" +:+
  pad 2 (hour t) +:+ ":" +:+ pad 2 (minute t) +:+ ":" +:+ pad 2 (second t) +:+
  (if microsecond t =? 0 then "" else "." +:+ pad 6 (microsecond t)).

(** [t.strftime("%Y%m%d_%H%M%S")] *)
Definition strftime_compact (t : Z) : string :=
  let '(y, m, d) := civil_from_days (t / us_per_day) in
  pad 4 y +:+ pad 2 m +:+ pad 2 d +:+ "_" +:+
  pad 2 (hour t) +:+ pad 2 (minute t) +:+ pad 2 (second t).

End datetime.

(** ** Responses *)

(** The argument of [jsonify]. *)
#[warnings="-register-all"]
Inductive json :=
| JNull
| JBool (b : bool)
| JInt (n : Z)
| JStr (s : string)
| JList (l : list json)
| JObj (fields : list (string * json)).

Definition JOpt (o : option string) : json :=
  match o with Some s => JStr s | None => JNull end.

(** [d[k]] on a JSON object, first binding. *)
Definition json_field (k : string) (j : json) : option json :=
  match j with
  | JObj fields => snd <$> List.find (fun kv => String.eqb (fst kv) k) fields
  | _ => None
  end.

Inductive response :=
| Rendered (template : string)                  (* render_template(name) *)
| Jsonify (body : json)                         (* jsonify(body), status 200 *)
| Attachment (body content_type content_disposition : string)
| StaticFile (filename : string)                (* the built-in static view *)
| OptionsReply                                  (* automatic OPTIONS answer *)
| HttpError (code : Z).                         (* 404, 405, 500 *)

(** ** CSV writing ([csv.DictWriter], excel dialect) *)

Module csv.

Inductive value := VNone | VInt (n : Z) | VStr (s : string).

Definition VOpt (o : option string) : value :=
  match o with Some s => VStr s | None => VNone end.

Definition field_text (v : value) : string :=
  match v with
  | VNone => EmptyString
  | VInt n => Py.str_of_Z n
  | VStr s => s
  end.

Definition quotechar : ascii := ascii_of_nat 34.
Definition delimiter : ascii := ascii_of_nat 44.
Definition CR : ascii := ascii_of_nat 13.
Definition LF : ascii := ascii_of_nat 10.
Definition lineterminator : string := String CR (String LF EmptyString).

Definition special (c : ascii) : bool :=
  Ascii.eqb c delimiter || Ascii.eqb c quotechar || Ascii.eqb c CR || Ascii.eqb c LF.

Fixpoint needs_quotes (s : string) : bool :=
  match s with
  | EmptyString => false
  | String c t => special c || needs_quotes t
  end.

Fixpoint double_quotes (s : string) : string :=
  match s with
  | EmptyString => EmptyString
  | String c t =>
      if Ascii.eqb c quotechar then String c (String c (double_quotes t))
      else String c (double_quotes t)
  end.

(** QUOTE_MINIMAL *)
Definition write_field (s : string) : string :=
  if needs_quotes s then String quotechar (double_quotes s +:+ String quotechar EmptyString)
  else s.

(** [writer.writerow(fields)]: a lone empty field is written quoted. *)
Definition writerow (fields : list string) : string :=
  match fields with
  | [EmptyString] => String quotechar (String quotechar lineterminator)
  | _ => Py.join (String delimiter EmptyString) (map write_field fields) +:+ lineterminator
  end.

(** A row dictionary, keys in insertion order. *)
Definition rowdict := list (string * value).

Definition keys (d : rowdict) : list string := map fst d.

Definition get (d : rowdict) (k : string) : option value :=
  snd <$> List.find (fun kv => String.eqb (fst kv) k) d.

Definition mem (k : string) (l : list string) : bool :=
  existsb (String.eqb k) l.

(** [DictWriter._dict_to_list] with [extrasaction='raise'], [restval='']. *)
Definition dict_to_list (fieldnames : list string) (d : rowdict) : exn + list string :=
  if forallb (fun k => mem k fieldnames) (keys d)
  then inr (map (fun k => match get d k with
                          | Some v => field_text v
                          | None => EmptyString
                          end) fieldnames)
  else inl (ValueError "dict contains fields not in fieldnames").

(** [writer.writeheader()] *)
Definition writeheader (fieldnames : list string) : string := writerow fieldnames.

(** [writer.writerows(data)] appended to what was written so far. *)
Fixpoint writerows (fieldnames : list string) (data : list rowdict) (output : string)
  : exn + string :=
  match data with
  | [] => inr output
  | d :: rest =>
      match dict_to_list fieldnames d with
      | inl e => inl e
      | inr fields => writerows fieldnames rest (output +:+ writerow fields)
      end
  end.

End csv.

(** ** Query helpers *)

(** ORDER BY key DESC; rows with equal keys keep their table order. *)
Fixpoint insert_desc {A} (key : A -> Z) (x : A) (l : list A) : list A :=
  match l with
  | [] => [x]
  | y :: r => if key y <=? key x then x :: l else y :: insert_desc key x r
  end.

Definition order_by_desc {A} (key : A -> Z) (l : list A) : list A :=
  fold_right (insert_desc key) [] l.

(** SELECT DISTINCT: a scan that keeps the values not seen before. *)
Fixpoint distinct_from {A} `{EqDecision A} (seen l : list A) : list A :=
  match l with
  | [] => []
  | x :: r =>
      if bool_decide (x ∈ seen) then distinct_from seen r
      else x :: distinct_from (x :: seen) r
  end.

Definition distinct {A} `{EqDecision A} (l : list A) : list A := distinct_from [] l.

(** GROUP BY key with COUNT(key): one group per distinct key, NULL keys
    counted as zero by [count_col]. *)
Definition group_count {K} `{EqDecision K} (weight : K -> Z) (ks : list K) : list (K * Z) :=
  map (fun k => (k, weight k * Z.of_nat (length (List.filter (fun y => bool_decide (y = k)) ks))))
      (distinct ks).

Definition count_col {A} (o : option A) : Z :=
  match o with Some _ => 1 | None => 0 end.

(** A read query that also uses the engine's clock ([datetime('now')]). *)
Definition db_query_now {A} (q : Z -> world -> A) : M A :=
  fun E _ st =>
    let w := st_world st in
    match fault_at E (db_ops w) with
    | Some msg => (Raise (OperationalError msg), set_world (tick_db w) st)
    | None => (Ok (q (utcnow_at E (clock_reads w)) w), set_world (tick_clock (tick_db w)) st)
    end.

(** [datetime.now()]: local time. *)
Definition datetime_now : M Z :=
  fun E _ st =>
    let w := st_world st in
    (Ok (utcnow_at E (clock_reads w) + utc_offset E), set_world (tick_clock w) st).

Definition lift_result {A} (x : exn + A) : M A :=
  match x with inl e => raise e | inr a => ret a end.

(** ** The handlers *)

Local Open Scope py_scope.

Definition e_acute : string := String (ascii_of_nat 233) EmptyString.
Definition e_grave : string := String (ascii_of_nat 232) EmptyString.
Definition apostrophe : string := String (ascii_of_nat 39) EmptyString.

(** [f"{x}"] for a value that may be [None] *)
Definition fmt_opt (o : option string) : string := default "None" o.

(** [log_visitor] (app.py:91-119) *)
Definition log_visitor (page action : string) : M unit :=
  try_except
    (r <- the_request ;;
     let ip := get_client_ip r in
     let user_agent := request.user_agent r in
     let '(browser, platform) := parse_user_agent user_agent in
     fresh <- uuid4 ;;
     sid <- session_get "session_id" ;;
     let visitor :=
       NewVisitor (default fresh sid) ip (Some user_agent) page (Some action)
         (request.referrer r) (Some (request.host r)) (Some (request.method r))
         (Some platform) (Some browser) in
     db_add visitor ;;;
     db_commit ;;;
     logger "INFO" ("VISITOR LOGGED: " +:+ ip +:+ " - " +:+ action +:+ " - " +:+ page))
    (fun e =>
     logger "ERROR" ("Error logging visitor: " +:+ exn_str e) ;;;
     db_rollback).

(** [before_request] (app.py:121-129) *)
Definition before_request : M unit :=
  sid <- session_get "session_id" ;;
  (match sid with
   | None => u <- uuid4 ;; session_set "session_id" u
   | Some _ => ret tt
   end) ;;;
  r <- the_request ;;
  if negb (Py.startswith (request.path r) "/static")
     && negb (String.eqb (request.path r) "/admin/logs")
  then log_visitor (request.path r) "VISIT"
  else ret tt.

(** [render_template(name)]: the rendered page, or the exception of the
    template engine. *)
Definition render_template (name : string) : M response :=
  fun E _ st =>
    match template_fault E name with
    | Some msg => (Raise (TemplateError msg), st)
    | None => (Ok (Rendered name), st)
    end.

(** The view of the static route: the file, or 404 when the static folder
    has no such file. *)
Definition send_static_file (filename : string) : M response :=
  fun E _ st =>
    (Ok (if static_exists E filename then StaticFile filename else HttpError 404), st).

(** The page views (app.py:131-148) *)
Definition index : M response := render_template "index.html".

Definition portfolio : M response :=
  log_visitor "/portfolio" "PORTFOLIO_VIEW" ;;;
  render_template "portfolio.html".

Definition about : M response :=
  log_visitor "/about" "ABOUT_VIEW" ;;;
  render_template "about.html".

Definition contact : M response :=
  log_visitor "/contact" "CONTACT_VIEW" ;;;
  render_template "contact.html".

Definition contact_success : json :=
  JObj [("status", JStr "success");
        ("message", JStr ("Message envoy" +:+ e_acute +:+ " avec succ" +:+ e_grave +:+ "s!"))].

Definition contact_error : json :=
  JObj [("status", JStr "error");
        ("message", JStr ("Erreur lors de l" +:+ apostrophe +:+ "envoi"))].

(** [contact_submit] (app.py:150-173) *)
Definition contact_submit : M response :=
  try_except
    (r <- the_request ;;
     let name := request.form r !! "name" in
     let email := request.form r !! "email" in
     let message := request.form r !! "message" in
     let contact_msg := NewContactMessage name email message (get_client_ip r) in
     db_add contact_msg ;;;
     db_commit ;;;
     log_visitor "/contact" ("CONTACT_SUBMIT:" +:+ fmt_opt name) ;;;
     ret (Jsonify contact_success))
    (fun e =>
     logger "ERROR" ("Error saving contact message: " +:+ exn_str e) ;;;
     ret (Jsonify contact_error)).

Definition admin : M response := render_template "admin.html".

Definition log_entry (visitor : Visitor.t) : json :=
  JObj [("id", JInt (Visitor.id visitor));
        ("session_id", JStr (Visitor.session_id visitor));
        ("ip", JStr (Visitor.ip_address visitor));
        ("user_agent", JOpt (Visitor.user_agent visitor));
        ("timestamp", JStr (datetime.isoformat (Visitor.timestamp visitor)));
        ("page", JStr (Visitor.page visitor));
        ("action", JOpt (Visitor.action visitor));
        ("referrer", JOpt (Visitor.referrer visitor));
        ("host", JOpt (Visitor.host visitor));
        ("method", JOpt (Visitor.method visitor));
        ("platform", JOpt (Visitor.platform visitor));
        ("browser", JOpt (Visitor.browser visitor))].

(** [Visitor.query.count()] *)
Definition count_visitors (w : world) : Z := Z.of_nat (length (visitor_tbl w)).

(** [db.session.query(Visitor.ip_address).distinct().count()] *)
Definition count_distinct_ips (w : world) : Z :=
  Z.of_nat (length (distinct (map Visitor.ip_address (visitor_tbl w)))).

Definition error_payload (text : string) : json := JObj [("error", JStr text)].

Definition recuperation : string :=
  "Erreur lors de la r" +:+ e_acute +:+ "cup" +:+ e_acute +:+ "ration des ".

(** [admin_logs] (app.py:179-212) *)
Definition admin_logs : M response :=
  try_except
    (visitors <- db_query (fun w => take 100 (order_by_desc Visitor.timestamp (visitor_tbl w))) ;;
     let logs := map log_entry visitors in
     total_visits <- db_query count_visitors ;;
     unique_visitors <- db_query count_distinct_ips ;;
     ret (Jsonify (JObj [("logs", JList logs);
                         ("total", JInt total_visits);
                         ("unique_visitors", JInt unique_visitors)])))
    (fun e =>
     logger "ERROR" ("Error fetching logs: " +:+ exn_str e) ;;;
     ret (Jsonify (error_payload (recuperation +:+ "logs")))).

(** The hourly histogram (raw SQL, app.py:236-242): rows of the trailing
    24 hours, the threshold being the engine's clock cut to whole seconds;
    one group per hour of day that occurs, in increasing order. *)
Definition hourly_query (now : Z) (w : world) : list (string * Z) :=
  let threshold := now / datetime.us_per_second - 86400 in
  let recent :=
    List.filter (fun v => threshold <=? Visitor.timestamp v / datetime.us_per_second)
                (visitor_tbl w) in
  omap (fun h =>
          let n := length (List.filter (fun v => datetime.hour (Visitor.timestamp v) =? h) recent) in
          match n with
          | O => None
          | S _ => Some (datetime.pad 2 h, Z.of_nat n)
          end)
       (map Z.of_nat (seq 0 24)).

Definition top_pages_query (w : world) : list (string * Z) :=
  take 10 (order_by_desc snd (group_count (fun _ => 1) (map Visitor.page (visitor_tbl w)))).

Definition top_browsers_query (w : world) : list (option string * Z) :=
  take 5 (order_by_desc snd (group_count count_col (map Visitor.browser (visitor_tbl w)))).

(** [admin_stats] (app.py:214-254) *)
Definition admin_stats : M response :=
  try_except
    (total_visits <- db_query count_visitors ;;
     unique_visitors <- db_query count_distinct_ips ;;
     total_messages <- db_query (fun w => Z.of_nat (length (contact_tbl w))) ;;
     top_pages <- db_query top_pages_query ;;
     top_browsers <- db_query top_browsers_query ;;
     hourly_visits <- db_query_now hourly_query ;;
     ret (Jsonify (JObj
       [("total_visits", JInt total_visits);
        ("unique_visitors", JInt unique_visitors);
        ("total_messages", JInt total_messages);
        ("top_pages",
         JList (map (fun p => JObj [("page", JStr (fst p)); ("count", JInt (snd p))]) top_pages));
        ("top_browsers",
         JList (map (fun b => JObj [("browser", JOpt (fst b)); ("count", JInt (snd b))]) top_browsers));
        ("hourly_visits",
         JList (map (fun h => JObj [("hour", JStr (fst h)); ("count", JInt (snd h))]) hourly_visits))])))
    (fun e =>
     logger "ERROR" ("Error fetching stats: " +:+ exn_str e) ;;;
     ret (Jsonify (error_payload (recuperation +:+ "statistiques")))).

Definition message_entry (msg : ContactMessage.t) : json :=
  JObj [("id", JInt (ContactMessage.id msg));
        ("name", JStr (ContactMessage.name msg));
        ("email", JStr (ContactMessage.email msg));
        ("message", JStr (ContactMessage.message msg));
        ("ip_address", JStr (ContactMessage.ip_address msg));
        ("timestamp", JStr (datetime.isoformat (ContactMessage.timestamp msg)));
        ("read", JBool (ContactMessage.read msg))].

(** [admin_messages] (app.py:256-276) *)
Definition admin_messages : M response :=
  try_except
    (messages <- db_query (fun w => order_by_desc ContactMessage.timestamp (contact_tbl w)) ;;
     let messages_data := map message_entry messages in
     ret (Jsonify (JObj [("messages", JList messages_data)])))
    (fun e =>
     logger "ERROR" ("Error fetching messages: " +:+ exn_str e) ;;;
     ret (Jsonify (error_payload (recuperation +:+ "messages")))).

Definition export_row (visitor : Visitor.t) : csv.rowdict :=
  [("id", csv.VInt (Visitor.id visitor));
   ("session_id", csv.VStr (Visitor.session_id visitor));
   ("ip_address", csv.VStr (Visitor.ip_address visitor));
   ("user_agent", csv.VOpt (Visitor.user_agent visitor));
   ("timestamp", csv.VStr (datetime.isoformat (Visitor.timestamp visitor)));
   ("page", csv.VStr (Visitor.page visitor));
   ("action", csv.VOpt (Visitor.action visitor));
   ("referrer", csv.VOpt (Visitor.referrer visitor));
   ("host", csv.VOpt (Visitor.host visitor));
   ("method", csv.VOpt (Visitor.method visitor));
   ("platform", csv.VOpt (Visitor.platform visitor));
   ("browser", csv.VOpt (Visitor.browser visitor))].

(** [export_logs] (app.py:278-316) *)
Definition export_logs : M response :=
  try_except
    (visitors <- db_query (fun w => order_by_desc Visitor.timestamp (visitor_tbl w)) ;;
     let data := map export_row visitors in
     let fieldnames := match data with d :: _ => csv.keys d | [] => [] end in
     let output := csv.writeheader fieldnames in
     output <- lift_result (csv.writerows fieldnames data output) ;;
     now <- datetime_now ;;
     ret (Attachment output "text/csv"
            ("attachment; filename=visitor_logs_" +:+ datetime.strftime_compact now +:+ ".csv")))
    (fun e =>
     logger "ERROR" ("Error exporting logs: " +:+ exn_str e) ;;;
     ret (Jsonify (error_payload ("Erreur lors de l" +:+ apostrophe +:+ "export")))).

(** ** Routing and the request cycle *)

Inductive endpoint :=
| ep_index | ep_portfolio | ep_about | ep_contact | ep_admin
| ep_admin_logs | ep_admin_stats | ep_admin_messages | ep_export_logs
| ep_static (filename : string).

Fixpoint drop_chars (n : nat) (s : string) : string :=
  match n, s with
  | S k, String _ t => drop_chars k t
  | _, _ => s
  end.

(** The URL map: the routes declared with [@app.route] and the static
    route [/static/<path:filename>] every Flask application has. *)
Definition match_route (path : string) : option endpoint :=
  if String.eqb path "/" then Some ep_index
  else if String.eqb path "/portfolio" then Some ep_portfolio
  else if String.eqb path "/about" then Some ep_about
  else if String.eqb path "/contact" then Some ep_contact
  else if String.eqb path "/admin" then Some ep_admin
  else if String.eqb path "/admin/logs" then Some ep_admin_logs
  else if String.eqb path "/admin/stats" then Some ep_admin_stats
  else if String.eqb path "/admin/messages" then Some ep_admin_messages
  else if String.eqb path "/admin/export" then Some ep_export_logs
  else if Py.startswith path "/static/" then
    match drop_chars 8 path with
    | EmptyString => None
    | String c t => if Ascii.eqb c "/" then None else Some (ep_static (String c t))
    end
  else None.

Definition is_read_method (m : string) : bool := String.eqb m "GET" || String.eqb m "HEAD".

(** The view function of an endpoint for a method: GET rules also answer
    HEAD, every rule answers OPTIONS by itself, other methods get 405. *)
Definition view (ep : endpoint) (m : string) : M response :=
  if String.eqb m "OPTIONS" then ret OptionsReply
  else if is_read_method m then
    match ep with
    | ep_index => index
    | ep_portfolio => portfolio
    | ep_about => about
    | ep_contact => contact
    | ep_admin => admin
    | ep_admin_logs => admin_logs
    | ep_admin_stats => admin_stats
    | ep_admin_messages => admin_messages
    | ep_export_logs => export_logs
    | ep_static f => send_static_file f
    end
  else match ep with
       | ep_contact => if String.eqb m "POST" then contact_submit else ret (HttpError 405)
       | _ => ret (HttpError 405)
       end.

Definition dispatch_request : M response :=
  r <- the_request ;;
  match match_route (request.path r) with
  | Some ep => view ep (request.method r)
  | None => ret (HttpError 404)
  end.

(** [before_request] functions run first, also when no route matches. *)
Definition full_dispatch_request : M response :=
  before_request ;;; dispatch_request.

(** [Flask.log_exception]: the line the application logs for an exception
    no handler caught. *)
Definition log_exception (r : request.t) (w : world) : world :=
  add_log ("ERROR", "Exception on " +:+ request.path r +:+ " [" +:+ request.method r +:+ "]") w.

(** One request of a client holding the session cookie [cookie]: a fresh
    unit of work, the request cycle, the session written back.  An
    exception that leaves the view is logged and answered 500 by the
    application, which still writes the session back (the behaviour
    outside debug mode); what was committed before stays committed. *)
Definition handle_request (E : env) (r : request.t) (cookie : gmap string string) (w : world)
  : response * gmap string string * world :=
  match full_dispatch_request E r (mkState w [] cookie) with
  | (Ok resp, st) => (resp, st_session st, st_world st)
  | (Raise _, st) => (HttpError 500, st_session st, log_exception r (st_world st))
  end.

(** * Notions used in the statements *)

(** ** Client IP *)

(** The text of [s] before its first [sep] (all of [s] when there is none). *)
Fixpoint first_value (sep : ascii) (s : string) : string :=
  match s with
  | EmptyString => EmptyString
  | String c t => if Ascii.eqb c sep then EmptyString else String c (first_value sep t)
  end.

(** The priority rule as the specification words it: a header counts as
    soon as it is present. *)
Definition client_ip_by_presence (r : request.t) : string :=
  match request.environ r !! "HTTP_X_FORWARDED_FOR" with
  | Some v => first_value comma v
  | None =>
      match request.environ r !! "HTTP_X_REAL_IP" with
      | Some v => v
      | None => default "Unknown" (request.environ r !! "REMOTE_ADDR")
      end
  end.

(** A header value that is present and not empty. *)
Definition nonempty (o : option string) : option string :=
  match o with
  | Some (String c t) => Some (String c t)
  | _ => None
  end.

(** The priority rule with a header counting only when present and not
    empty; the connection address counts whenever present. *)
Definition client_ip_by_priority (r : request.t) : string :=
  match nonempty (request.environ r !! "HTTP_X_FORWARDED_FOR") with
  | Some v => first_value comma v
  | None =>
      match nonempty (request.environ r !! "HTTP_X_REAL_IP") with
      | Some v => v
      | None => default "Unknown" (request.environ r !! "REMOTE_ADDR")
      end
  end.

(** ** User agents *)

Definition browsers : list string := ["Chrome"; "Firefox"; "Safari"; "Edge"; "Unknown"].

Definition platforms : list string :=
  ["Windows"; "macOS"; "Linux"; "Android"; "iOS"; "Unknown"].

(** ** Effects of a handler on the state *)

(** Tables, unit of work and session are what they were (counters and the
    application log may have moved). *)
Definition unchanged (st st' : state) : Prop :=
  visitor_tbl (st_world st') = visitor_tbl (st_world st)
  /\ contact_tbl (st_world st') = contact_tbl (st_world st)
  /\ st_pending st' = st_pending st
  /\ st_session st' = st_session st.

(** Every run of [m] relates the state before to the state after by [R],
    whether it returns or raises. *)
Definition keeps {A} (R : state -> state -> Prop) (m : M A) : Prop :=
  forall E r st, R st (snd (m E r st)).

(** The storage engine accepts every operation. *)
Definition storage_ok (E : env) : Prop := forall n, fault_at E n = None.

(** ** The Visit Logger *)

(** The state in which [log_visitor page action] calls [db.session.commit()]:
    an identifier drawn, the new object added to the unit of work. *)
Definition before_commit (E : env) (r : request.t) (st : state) (page action : string)
  : state :=
  let w := st_world st in
  let ua := request.user_agent r in
  set_pending
    (st_pending st ++
     [NewVisitor (default (uuid_at E (uuid_draws w)) (st_session st !! "session_id"))
        (get_client_ip r) (Some ua) page (Some action)
        (request.referrer r) (Some (request.host r)) (Some (request.method r))
        (Some (snd (parse_user_agent ua))) (Some (fst (parse_user_agent ua)))])
    (set_world (tick_uuid w) st).

(** The row [log_visitor page action] writes for request [r] in state [st]. *)
Definition logged_row (E : env) (r : request.t) (st : state) (page action : string) : Visitor.t :=
  let w := st_world st in
  Visitor.mk (next_id (map Visitor.id (visitor_tbl w)))
    (default (uuid_at E (uuid_draws w)) (st_session st !! "session_id"))
    (get_client_ip r)
    (Some (request.user_agent r))
    (utcnow_at E (clock_reads w))
    page (Some action)
    (request.referrer r) (Some (request.host r)) (Some (request.method r))
    (Some (snd (parse_user_agent (request.user_agent r))))
    (Some (fst (parse_user_agent (request.user_agent r))))
    None None.

(** The row carries this session id, page and action tag. *)
Definition row_of (sid page action : string) (v : Visitor.t) : Prop :=
  Visitor.session_id v = sid /\ Visitor.page v = page /\ Visitor.action v = Some action.

(** What one call of the Visit Logger adds to the Visitor table from a
    clean unit of work, the engine deciding at the commit: nothing when it
    raises, else one row. *)
Definition log_outcome (E : env) (st : state) (sid page action : string)
  (new : list Visitor.t) : Prop :=
  match fault_at E (db_ops (st_world st)) with
  | Some _ => new = []
  | None => exists v, new = [v] /\ row_of sid page action v
  end.

(** ** The request cycle *)

(** The guard of [before_request]: the path is logged. *)
Definition logged_path (r : request.t) : bool :=
  negb (Py.startswith (request.path r) "/static")
  && negb (String.eqb (request.path r) "/admin/logs").

(** The state after the first lines of [before_request]. *)
Definition ensure_session (E : env) (st : state) : state :=
  match st_session st !! "session_id" with
  | Some _ => st
  | None =>
      set_session (<["session_id" := uuid_at E (uuid_draws (st_world st))]> (st_session st))
        (set_world (tick_uuid (st_world st)) st)
  end.

(** The page and action tag of the row a view writes by itself, beside the
    row of the middleware; [None] for the views that do not log. *)
Definition own_action (ep : endpoint) (r : request.t) : option (string * string) :=
  let m := request.method r in
  if String.eqb m "OPTIONS" then None
  else if is_read_method m then
    match ep with
    | ep_portfolio => Some ("/portfolio", "PORTFOLIO_VIEW")
    | ep_about => Some ("/about", "ABOUT_VIEW")
    | ep_contact => Some ("/contact", "CONTACT_VIEW")
    | _ => None
    end
  else
    match ep with
    | ep_contact =>
        if String.eqb m "POST"
        then Some ("/contact", "CONTACT_SUBMIT:" +:+ fmt_opt (request.form r !! "name"))
        else None
    | _ => None
    end.

Definition view_action (r : request.t) : option (string * string) :=
  match match_route (request.path r) with
  | Some ep => own_action ep r
  | None => None
  end.

(** The Visitor rows a request added, the table being append-only. *)
Definition rows_added (E : env) (r : request.t) (cookie : gmap string string) (w : world)
  : list Visitor.t :=
  drop (length (visitor_tbl w)) (visitor_tbl (snd (handle_request E r cookie w))).

(** The row is tagged as the contact submission of [name]. *)
Definition submit_tagged (name : string) (v : Visitor.t) : bool :=
  bool_decide (Visitor.action v = Some ("CONTACT_SUBMIT:" +:+ name)).

(** ** Client sessions *)



(** ** Admin queries *)

(** The number of distinct IP addresses, and of distinct session ids, among
    the rows of a Visitor table. *)
Definition distinct_ip_count (tbl : list Visitor.t) : Z :=
  Z.of_nat (size (list_to_set (map Visitor.ip_address tbl) : gset string)).

Definition distinct_session_count (tbl : list Visitor.t) : Z :=
  Z.of_nat (size (list_to_set (map Visitor.session_id tbl) : gset string)).

(** The data lines of the export, for a list of column names. *)
Definition export_line (fieldnames : list string) (v : Visitor.t) : string :=
  csv.writerow
    (map (fun k => match csv.get (export_row v) k with
                   | Some x => csv.field_text x
                   | None => EmptyString
                   end) fieldnames).

Definition export_lines (fieldnames : list string) (vs : list Visitor.t) : string :=
  fold_right (fun v acc => export_line fieldnames v +:+ acc) EmptyString vs.

Definition export_columns : list string :=
  ["id"; "session_id"; "ip_address"; "user_agent"; "timestamp"; "page"; "action";
   "referrer"; "host"; "method"; "platform"; "browser"].

Definition export_header_text : string :=
  "id,session_id,ip_address,user_agent,timestamp,page,action,referrer,host,method,platform,browser".

(** * Concrete inputs *)

Definition environ_of (l : list (string * string)) : gmap string string := list_to_map l.

(** A storage engine that never raises, one that raises on every
    operation, one that raises on its third operation only. *)
Definition healthy_env : env :=
  {| fault_at := fun _ => None;
     uuid_at := fun n => "uuid-" +:+ Py.str_of_Z (Z.of_nat n);
     utcnow_at := fun n => 1700000000000000 + Z.of_nat n * 1000000;
     utc_offset := 3600000000;
     template_fault := fun _ => None;
     static_exists := fun _ => true |}.

Definition broken_env : env :=
  {| fault_at := fun _ => Some "database is locked";
     uuid_at := fun n => "uuid-" +:+ Py.str_of_Z (Z.of_nat n);
     utcnow_at := fun n => 1700000000000000 + Z.of_nat n * 1000000;
     utc_offset := 3600000000;
     template_fault := fun _ => None;
     static_exists := fun _ => true |}.

Definition flaky_env : env :=
  {| fault_at := fun n => if Nat.eqb n 2 then Some "disk full" else None;
     uuid_at := fun n => "uuid-" +:+ Py.str_of_Z (Z.of_nat n);
     utcnow_at := fun n => 1700000000000000 + Z.of_nat n * 1000000;
     utc_offset := 3600000000;
     template_fault := fun _ => None;
     static_exists := fun _ => true |}.

Definition empty_world : world := mkWorld [] [] 0 0 0 [].

Definition visit (id : Z) (sid ip : string) (ts : Z) : Visitor.t :=
  Visitor.mk id sid ip (Some "curl/8.0") ts "/" (Some "VISIT") None (Some "example.org")
    (Some "GET") (Some "Unknown") (Some "Unknown") None None.

(** Two sessions behind one address. *)
Definition shared_ip_world : world :=
  mkWorld [visit 1 "session-a" "198.51.100.4" 1700000000000000;
           visit 2 "session-b" "198.51.100.4" 1700000060000000]
          [] 0 0 0 [].

Definition chrome_headers : gmap string string :=
  environ_of [("HTTP_USER_AGENT", "Mozilla/5.0 (Windows NT 10.0) Chrome/91.0");
              ("REMOTE_ADDR", "203.0.113.7")].

Definition iphone_ua : string :=
  "Mozilla/5.0 (iPhone; CPU iPhone OS 14_0 like Mac OS X) AppleWebKit/605.1.15 (KHTML, like Gecko) Version/14.0 Mobile/15E148 Safari/604.1".

(** A request whose forwarded-for header is present and empty. *)
Definition empty_forwarded_request : request.t :=
  request.mk "/" "GET" "example.org"
    (environ_of [("HTTP_X_FORWARDED_FOR", EmptyString); ("HTTP_X_REAL_IP", "10.0.0.1");
                 ("REMOTE_ADDR", "127.0.0.1")]) ∅.

Definition get_index : request.t := request.mk "/" "GET" "example.org" chrome_headers ∅.

Definition get_portfolio : request.t :=
  request.mk "/portfolio" "GET" "example.org" chrome_headers ∅.

Definition get_admin_logs : request.t :=
  request.mk "/admin/logs" "GET" "example.org" chrome_headers ∅.

Definition get_export : request.t :=
  request.mk "/admin/export" "GET" "example.org" chrome_headers ∅.

Definition post_contact : request.t :=
  request.mk "/contact" "POST" "example.org" chrome_headers
    (environ_of [("name", "Ann"); ("email", "ann@example.org"); ("message", "Hello")]).


(** * Notions used in the further properties *)

(** ** Rows written while a request is handled *)

(** An object waiting in the unit of work becomes a row satisfying [P]
    (Visitor) or [Q] (ContactMessage), whatever key and timestamp the flush
    gives it. *)
Definition entity_ok (P : Visitor.t -> Prop) (Q : ContactMessage.t -> Prop) (x : entity)
  : Prop :=
  match x with
  | NewVisitor sid ip ua pg act ref hst mth plat brw =>
      forall id ts, P (Visitor.mk id sid ip ua ts pg act ref hst mth plat brw None None)
  | NewContactMessage (Some nm) (Some em) (Some msg) ip =>
      forall id ts, Q (ContactMessage.mk id nm em msg ip ts false)
  | NewContactMessage _ _ _ _ => True
  end.

(** From a unit of work holding only such objects, the step reaches one that
    again holds only such objects, and both tables have grown by rows
    satisfying [P] and [Q]: no row was removed or changed. *)
Definition grows (P : Visitor.t -> Prop) (Q : ContactMessage.t -> Prop) (st st' : state)
  : Prop :=
  Forall (entity_ok P Q) (st_pending st) ->
  Forall (entity_ok P Q) (st_pending st')
  /\ (exists vnew, visitor_tbl (st_world st') = visitor_tbl (st_world st) ++ vnew
                   /\ Forall P vnew)
  /\ (exists cnew, contact_tbl (st_world st') = contact_tbl (st_world st) ++ cnew
                   /\ Forall Q cnew).

(** Every run of [m] for the request [r] relates the states by [R]. *)
Definition keeps_at {A} (r : request.t) (R : state -> state -> Prop) (m : M A) : Prop :=
  forall E st, R st (snd (m E r st)).

(** The Visitor row records the request: client IP, user agent, referrer,
    host, method, and the classification of the user agent. *)
Definition describes (r : request.t) (v : Visitor.t) : Prop :=
  Visitor.ip_address v = get_client_ip r
  /\ Visitor.user_agent v = Some (request.user_agent r)
  /\ Visitor.referrer v = request.referrer r
  /\ Visitor.host v = Some (request.host r)
  /\ Visitor.method v = Some (request.method r)
  /\ Visitor.browser v = Some (fst (parse_user_agent (request.user_agent r)))
  /\ Visitor.platform v = Some (snd (parse_user_agent (request.user_agent r))).

(** The derived columns of the row agree with its own user agent column,
    and the reserved columns are empty. *)
Definition row_consistent (v : Visitor.t) : Prop :=
  (exists ua, Visitor.user_agent v = Some ua
              /\ Visitor.browser v = Some (fst (parse_user_agent ua))
              /\ Visitor.platform v = Some (snd (parse_user_agent ua)))
  /\ Visitor.action v <> None
  /\ Visitor.country v = None
  /\ Visitor.city v = None.

(** The request is a contact-form submission. *)
Definition is_contact_post (r : request.t) : Prop :=
  request.path r = "/contact" /\ request.method r = "POST".

(** The computation returns (does not raise), whatever the environment. *)
Definition returns {A} (m : M A) : Prop :=
  forall E r st, exists a st', m E r st = (Ok a, st').

(** The template a page view renders ([None] for the other endpoints). *)
Definition page_template (ep : endpoint) : option string :=
  match ep with
  | ep_index => Some "index.html"
  | ep_portfolio => Some "portfolio.html"
  | ep_about => Some "about.html"
  | ep_contact => Some "contact.html"
  | ep_admin => Some "admin.html"
  | _ => None
  end.

(** The error of the template engine a request runs into: the request is a
    GET or HEAD routed to a page view whose template fails. *)
Definition template_failure (E : env) (r : request.t) : option string :=
  if is_read_method (request.method r) then
    match match_route (request.path r) with
    | Some ep =>
        match page_template ep with
        | Some name => template_fault E name
        | None => None
        end
    | None => None
    end
  else None.

(** An installation without templates, as the repository is: every
    template fails to load; the storage engine accepts everything. *)
Definition no_templates_env : env :=
  {| fault_at := fun _ => None;
     uuid_at := fun n => "uuid-" +:+ Py.str_of_Z (Z.of_nat n);
     utcnow_at := fun n => 1700000000000000 + Z.of_nat n * 1000000;
     utc_offset := 3600000000;
     template_fault := fun name => Some name;
     static_exists := fun _ => false |}.

(** A world holding one stored contact message. *)
Definition one_message_world : world :=
  mkWorld [] [ContactMessage.mk 1 "Ann" "ann@example.org" "Hello" "203.0.113.7"
                1700000000000000 false]
          0 0 0 [].

(** A contact form sent without its email field. *)
Definition post_contact_no_email : request.t :=
  request.mk "/contact" "POST" "example.org" chrome_headers
    (environ_of [("name", "Ann"); ("message", "Hello")]).

(** Some required field of the contact form is absent. *)
Definition field_missing (r : request.t) : Prop :=
  request.form r !! "name" = None
  \/ request.form r !! "email" = None
  \/ request.form r !! "message" = None.

(** The action tags of the rows one logging attempt leaves, the engine
    deciding on operation [n]. *)
Definition attempt (E : env) (n : nat) (tag : string) : list (option string) :=
  match fault_at E n with
  | None => [Some tag]
  | Some _ => []
  end.

(** An engine that raises on its first operation only. *)
Definition first_fails_env : env :=
  {| fault_at := fun n => if Nat.eqb n 0 then Some "database is locked" else None;
     uuid_at := fun n => "uuid-" +:+ Py.str_of_Z (Z.of_nat n);
     utcnow_at := fun n => 1700000000000000 + Z.of_nat n * 1000000;
     utc_offset := 3600000000;
     template_fault := fun _ => None;
     static_exists := fun _ => true |}.

Definition android_ua : string :=
  "Mozilla/5.0 (Linux; Android 10; SM-G975F) AppleWebKit/537.36 (KHTML, like Gecko) Chrome/91.0.4472.120 Mobile Safari/537.36".

Definition legacy_edge_ua : string :=
  "Mozilla/5.0 (Windows NT 10.0; Win64; x64) AppleWebKit/537.36 (KHTML, like Gecko) Chrome/70.0.3538.102 Safari/537.36 Edge/18.19042".

(** A request behind two proxies. *)
Definition proxied_request : request.t :=
  request.mk "/" "GET" "example.org"
    (environ_of [("HTTP_X_FORWARDED_FOR", "198.51.100.4, 10.0.0.2, 10.0.0.1");
                 ("REMOTE_ADDR", "10.0.0.1")]) ∅.

(** ** Answers of the admin endpoints *)

(** The keys of a JSON object, in order. *)
Definition json_keys (j : json) : list string :=
  match j with
  | JObj fields => map fst fields
  | _ => []
  end.

Definition stats_keys : list string :=
  ["total_visits"; "unique_visitors"; "total_messages"; "top_pages"; "top_browsers";
   "hourly_visits"].








(** * Properties *)

(** ** Sanity checks of the helpers *)

Example lower_example : Py.lower "Mozilla/5.0 (X11) CHROME" = "mozilla/5.0 (x11) chrome".
Proof. reflexivity. Qed.

Example split_example : Py.split comma "1.2.3.4, 5.6.7.8" = ["1.2.3.4"; " 5.6.7.8"].
Proof. reflexivity. Qed.

Example isoformat_example :
  datetime.isoformat 1700000000123456 = "2023-11-14T22:13:20.123456"
  /\ datetime.isoformat 951782400000000 = "2000-02-29T00:00:00"
  /\ datetime.strftime_compact 1709251199000000 = "20240229_235959".
Proof. repeat split; vm_compute; reflexivity. Qed.

Example writerow_example :
  csv.writerow ["a,b"; "c"; EmptyString]
  = String csv.quotechar ("a,b" +:+ String csv.quotechar (",c," +:+ csv.lineterminator))
  /\ csv.writerow [] = csv.lineterminator.
Proof. split; vm_compute; reflexivity. Qed.

(** ** Request Context Reader *)

Lemma split_head sep s : head (Py.split sep s) = Some (first_value sep s).
Proof.
  induction s as [|c t IH]; simpl; [reflexivity|].
  destruct (Ascii.eqb c sep); [reflexivity|].
  destruct (Py.split sep t) as [|h rest]; simpl in *; congruence.
Qed.

(** C4, as stated, fails: with the forwarded-for header present but empty
    the code answers the real-IP header, where the rule by presence gives
    the (empty) first value of the forwarded-for header. *)
Lemma get_client_ip_empty_forwarded :
  get_client_ip empty_forwarded_request = "10.0.0.1"
  /\ client_ip_by_presence empty_forwarded_request = EmptyString
  /\ get_client_ip empty_forwarded_request <> client_ip_by_presence empty_forwarded_request.
Proof. repeat split; vm_compute; congruence. Qed.

(** C4 (amended): the client IP is the first comma-separated value of the
    forwarded-for header when that header is present and not empty; else the
    real-IP header when present and not empty; else the connection address
    when present; else the literal Unknown. *)
Theorem get_client_ip_priority (r : request.t) :
  get_client_ip r = client_ip_by_priority r.
Proof.
  unfold get_client_ip, client_ip_by_priority.
  destruct (request.environ r !! "HTTP_X_FORWARDED_FOR") as [[|c t]|];
    unfold Py.truthy_opt, Py.truthy, nonempty.
  - destruct (request.environ r !! "HTTP_X_REAL_IP") as [[|c t]|]; reflexivity.
  - rewrite split_head. reflexivity.
  - destruct (request.environ r !! "HTTP_X_REAL_IP") as [[|c t]|]; reflexivity.
Qed.

(** On requests whose forwarded-for and real-IP headers are not empty when
    present, the rule by presence is what the code computes. *)
Lemma get_client_ip_by_presence (r : request.t) :
  request.environ r !! "HTTP_X_FORWARDED_FOR" <> Some EmptyString ->
  request.environ r !! "HTTP_X_REAL_IP" <> Some EmptyString ->
  get_client_ip r = client_ip_by_presence r.
Proof.
  intros Hf Hr. unfold get_client_ip, client_ip_by_presence.
  destruct (request.environ r !! "HTTP_X_FORWARDED_FOR") as [[|c t]|];
    unfold Py.truthy_opt, Py.truthy; try congruence.
  - rewrite split_head. reflexivity.
  - destruct (request.environ r !! "HTTP_X_REAL_IP") as [[|c t]|]; simpl; congruence.
Qed.

(** A forwarded-for header that lists several addresses is not empty: the
    first of them is returned. *)
Lemma get_client_ip_forwarded_list (r : request.t) (v : string) :
  request.environ r !! "HTTP_X_FORWARDED_FOR" = Some v ->
  Py.str_in "," v = true ->
  get_client_ip r = first_value comma v.
Proof.
  intros Hv Hc. unfold get_client_ip. rewrite Hv.
  destruct v as [|c t]; [discriminate Hc|].
  unfold Py.truthy_opt, Py.truthy. rewrite split_head. reflexivity.
Qed.

(** ** User-Agent Classifier *)

Lemma lower_ua (s : string) :
  (if Py.truthy s then Py.lower s else EmptyString) = Py.lower s.
Proof. destruct s; reflexivity. Qed.

(** C5: a user agent whose lowercase form contains chrome is classified
    Chrome, whatever else it contains; the example of the specification
    gives Chrome on Windows; every input, the empty string included, gets a
    browser and a platform from the fixed lists. *)
Theorem parse_user_agent_chrome :
  (forall ua, Py.str_in "chrome" (Py.lower ua) = true ->
              fst (parse_user_agent ua) = "Chrome")
  /\ parse_user_agent "Mozilla/5.0 (Windows NT 10.0) Chrome/91.0" = ("Chrome", "Windows")
  /\ parse_user_agent EmptyString = ("Unknown", "Unknown")
  /\ (forall ua, exists b p, parse_user_agent ua = (b, p) /\ In b browsers /\ In p platforms).
Proof.
  repeat split.
  - intros ua H. unfold parse_user_agent. rewrite lower_ua, H. reflexivity.
  - intros ua. unfold parse_user_agent. rewrite lower_ua.
    eexists _, _. split; [reflexivity|]. split.
    + repeat (match goal with |- context [if ?b then _ else _] => destruct b end);
        simpl; tauto.
    + repeat (match goal with |- context [if ?b then _ else _] => destruct b end);
        simpl; tauto.
Qed.

(** A Chrome user agent that also names Safari. *)
Lemma parse_user_agent_chrome_witness :
  fst (parse_user_agent
         "Mozilla/5.0 (X11; Linux x86_64) AppleWebKit/537.36 (KHTML, like Gecko) Chrome/91.0 Safari/537.36")
  = "Chrome".
Proof. apply (proj1 parse_user_agent_chrome). vm_compute. reflexivity. Defined.

(** C10: a user agent whose lowercase form contains mac and not windows is
    classified macOS, and so never iOS, the mac test coming before the
    iphone and ipad tests. *)
Theorem parse_user_agent_mac (ua : string) :
  Py.str_in "mac" (Py.lower ua) = true ->
  Py.str_in "windows" (Py.lower ua) = false ->
  snd (parse_user_agent ua) = "macOS" /\ snd (parse_user_agent ua) <> "iOS".
Proof.
  intros Hm Hw. unfold parse_user_agent. rewrite lower_ua, Hm, Hw. simpl.
  split; [reflexivity | discriminate].
Qed.

Lemma parse_user_agent_mac_witness :
  Py.str_in "iphone" (Py.lower iphone_ua) = true
  /\ snd (parse_user_agent iphone_ua) = "macOS"
  /\ snd (parse_user_agent iphone_ua) <> "iOS".
Proof.
  split; [vm_compute; reflexivity|].
  apply (parse_user_agent_mac iphone_ua); vm_compute; reflexivity.
Defined.


(** ** Handlers as state transformers *)

Section Keeps.
Context (R : state -> state -> Prop) `{!Reflexive R} `{!Transitive R}.

Lemma keeps_ret {A} (a : A) : keeps R (ret a).
Proof. intros E r st. simpl. reflexivity. Qed.

Lemma keeps_raise {A} (e : exn) : keeps R (@raise A e).
Proof. intros E r st. simpl. reflexivity. Qed.

Lemma keeps_bind {A B} (m : M A) (k : A -> M B) :
  keeps R m -> (forall a, keeps R (k a)) -> keeps R (bind m k).
Proof.
  intros Hm Hk E r st. unfold bind. specialize (Hm E r st).
  destruct (m E r st) as [[a|e] st1]; simpl in *; [|assumption].
  etransitivity; [exact Hm | apply Hk].
Qed.

Lemma keeps_try_except {A} (body : M A) (handler : exn -> M A) :
  keeps R body -> (forall e, keeps R (handler e)) -> keeps R (try_except body handler).
Proof.
  intros Hb Hh E r st. unfold try_except. specialize (Hb E r st).
  destruct (body E r st) as [[a|e] st1]; simpl in *; [assumption|].
  etransitivity; [exact Hb | apply Hh].
Qed.

Lemma keeps_lift_result {A} (x : exn + A) : keeps R (lift_result x).
Proof. destruct x; [apply keeps_raise | apply keeps_ret]. Qed.

Lemma keeps_the_request : keeps R the_request.
Proof. intros E r st. simpl. reflexivity. Qed.

Lemma keeps_session_get k : keeps R (session_get k).
Proof. intros E r st. simpl. reflexivity. Qed.

Lemma keeps_render_template name : keeps R (render_template name).
Proof.
  intros E r st. unfold render_template.
  destruct (template_fault E name); simpl; reflexivity.
Qed.

Lemma keeps_send_static_file f : keeps R (send_static_file f).
Proof. intros E r st. simpl. reflexivity. Qed.

End Keeps.

#[local] Instance unchanged_refl : Reflexive unchanged.
Proof. intros st. repeat split. Qed.

#[local] Instance unchanged_trans : Transitive unchanged.
Proof.
  intros a b c (H1 & H2 & H3 & H4) (K1 & K2 & K3 & K4).
  repeat split; congruence.
Qed.

Lemma unchanged_logger level text : keeps unchanged (logger level text).
Proof. intros E r st. repeat split. Qed.

Lemma unchanged_uuid4 : keeps unchanged uuid4.
Proof. intros E r st. repeat split. Qed.

Lemma unchanged_datetime_now : keeps unchanged datetime_now.
Proof. intros E r st. repeat split. Qed.

Lemma unchanged_db_query {A} (q : world -> A) : keeps unchanged (db_query q).
Proof.
  intros E r st. unfold db_query.
  destruct (fault_at E (db_ops (st_world st))); repeat split.
Qed.

Lemma unchanged_db_query_now {A} (q : Z -> world -> A) : keeps unchanged (db_query_now q).
Proof.
  intros E r st. unfold db_query_now.
  destruct (fault_at E (db_ops (st_world st))); repeat split.
Qed.

Create HintDb frame.
#[local] Hint Resolve keeps_ret keeps_raise keeps_lift_result keeps_the_request
  keeps_session_get keeps_render_template keeps_send_static_file unchanged_logger unchanged_uuid4 unchanged_datetime_now
  unchanged_db_query unchanged_db_query_now : frame.

(** Steps through a handler made of binds and try/except blocks. *)
Ltac frame :=
  repeat first
    [ apply keeps_bind; [typeclasses eauto| |intros]
    | apply keeps_try_except; [typeclasses eauto| |intros]
    | solve [auto with frame typeclass_instances] ].

Lemma unchanged_index : keeps unchanged index.
Proof. unfold index. frame. Qed.

Lemma unchanged_admin : keeps unchanged admin.
Proof. unfold admin. frame. Qed.

Lemma unchanged_admin_logs : keeps unchanged admin_logs.
Proof. unfold admin_logs. frame. Qed.

Lemma unchanged_admin_stats : keeps unchanged admin_stats.
Proof. unfold admin_stats. frame. Qed.

Lemma unchanged_admin_messages : keeps unchanged admin_messages.
Proof. unfold admin_messages. frame. Qed.

Lemma unchanged_export_logs : keeps unchanged export_logs.
Proof. unfold export_logs. frame. Qed.

(** ** The Visit Logger *)

Lemma log_visitor_fault E r st page action msg :
  fault_at E (db_ops (st_world st)) = Some msg ->
  log_visitor page action E r st =
  (Ok tt,
   mkState (add_log ("ERROR", "Error logging visitor: " +:+ msg)
              (tick_db (tick_uuid (st_world st))))
           [] (st_session st)).
Proof.
  intros H. destruct st as [w p s]. simpl in H.
  unfold log_visitor, try_except, bind, the_request, uuid4, session_get, db_add,
    db_commit, logger, db_rollback.
  destruct (parse_user_agent (request.user_agent r)) as [b pl].
  cbn [st_world st_pending st_session set_world set_pending set_session
       tick_uuid tick_db db_ops].
  rewrite H. reflexivity.
Qed.

Lemma log_visitor_ok E r st page action :
  fault_at E (db_ops (st_world st)) = None ->
  st_pending st = [] ->
  log_visitor page action E r st =
  (Ok tt,
   mkState (add_log ("INFO", "VISITOR LOGGED: " +:+ get_client_ip r +:+ " - " +:+ action
                             +:+ " - " +:+ page)
              (put_visitor (logged_row E r st page action)
                 (tick_clock (tick_db (tick_uuid (st_world st))))))
           [] (st_session st)).
Proof.
  intros H Hp. destruct st as [w p s]. simpl in H, Hp. subst p.
  unfold log_visitor, try_except, bind, the_request, uuid4, session_get, db_add,
    db_commit, logger, db_rollback, logged_row.
  destruct (parse_user_agent (request.user_agent r)) as [b pl].
  cbn [st_world st_pending st_session set_world set_pending set_session
       tick_uuid tick_db db_ops app].
  rewrite H. reflexivity.
Qed.

Lemma db_commit_raise E r st e st2 :
  db_commit E r st = (Raise e, st2) ->
  st2 = set_world (tick_db (st_world st)) st.
Proof.
  unfold db_commit. destruct (fault_at E (db_ops (st_world st))).
  - intros [= _ <-]. reflexivity.
  - destruct (flush E (st_pending st) (tick_db (st_world st))); intros [= _ <-] || intros [=].
    reflexivity.
Qed.

Lemma log_visitor_unfold E r st page action :
  log_visitor page action E r st =
  match db_commit E r (before_commit E r st page action) with
  | (Ok _, st2) =>
      logger "INFO" ("VISITOR LOGGED: " +:+ get_client_ip r +:+ " - " +:+ action
                     +:+ " - " +:+ page) E r st2
  | (Raise e, st2) =>
      bind (logger "ERROR" ("Error logging visitor: " +:+ exn_str e))
           (fun _ => db_rollback) E r st2
  end.
Proof.
  unfold log_visitor, try_except, bind, the_request, uuid4, session_get, db_add,
    before_commit.
  destruct (parse_user_agent (request.user_agent r)) as [b pl].
  cbn [st_world st_pending st_session set_world set_pending set_session fst snd].
  match goal with |- context [db_commit E r ?s] => destruct (db_commit E r s) as [[u|e] st2] end;
    reflexivity.
Qed.

(** C3: when the commit of the Visit Logger raises, whether the engine
    refuses it or a constraint fails, the call still returns normally, the
    Visitor and ContactMessage tables are what they were, the unit of work
    is rolled back, the error is written to the application log, and
    whatever follows the call runs as after a return. *)
Theorem log_visitor_swallows E r st page action e st2 :
  db_commit E r (before_commit E r st page action) = (Raise e, st2) ->
  exists st',
    log_visitor page action E r st = (Ok tt, st')
    /\ visitor_tbl (st_world st') = visitor_tbl (st_world st)
    /\ contact_tbl (st_world st') = contact_tbl (st_world st)
    /\ st_pending st' = []
    /\ st_session st' = st_session st
    /\ last (app_log (st_world st')) = Some ("ERROR", "Error logging visitor: " +:+ exn_str e)
    /\ forall B (k : M B), bind (log_visitor page action) (fun _ => k) E r st = k E r st'.
Proof.
  intros H. pose proof (db_commit_raise _ _ _ _ _ H) as ->.
  eexists. split.
  { rewrite log_visitor_unfold, H. reflexivity. }
  cbn [st_world st_pending st_session set_world set_pending add_log tick_db tick_uuid
       before_commit visitor_tbl contact_tbl app_log].
  repeat split.
  - apply last_snoc.
  - intros B k. unfold bind at 1. rewrite log_visitor_unfold, H. reflexivity.
Qed.

Lemma log_visitor_swallows_witness :
  exists st',
    log_visitor "/" "VISIT" broken_env get_index (mkState empty_world [] ∅) = (Ok tt, st')
    /\ visitor_tbl (st_world st') = []
    /\ contact_tbl (st_world st') = []
    /\ st_pending st' = []
    /\ st_session st' = ∅
    /\ last (app_log (st_world st'))
       = Some ("ERROR", "Error logging visitor: " +:+ "database is locked")
    /\ (forall B (k : M B),
          bind (log_visitor "/" "VISIT") (fun _ => k) broken_env get_index
            (mkState empty_world [] ∅) = k broken_env get_index st')
    /\ fst (fst (handle_request broken_env get_index ∅ empty_world)) = Rendered "index.html".
Proof.
  destruct (log_visitor_swallows broken_env get_index (mkState empty_world [] ∅) "/" "VISIT"
              (OperationalError "database is locked")
              (snd (db_commit broken_env get_index
                      (before_commit broken_env get_index (mkState empty_world [] ∅)
                         "/" "VISIT")))
              eq_refl)
    as (st' & H1 & H2 & H3 & H4 & H5 & H6 & H7).
  exists st'. repeat split; try assumption.
Defined.

(** The Visit Logger never raises, whatever the engine does. *)
Lemma log_visitor_effect E r st page action sid :
  st_pending st = [] ->
  st_session st !! "session_id" = Some sid ->
  exists st' new,
    log_visitor page action E r st = (Ok tt, st')
    /\ st_pending st' = []
    /\ st_session st' = st_session st
    /\ contact_tbl (st_world st') = contact_tbl (st_world st)
    /\ visitor_tbl (st_world st') = visitor_tbl (st_world st) ++ new
    /\ db_ops (st_world st') = S (db_ops (st_world st))
    /\ log_outcome E st sid page action new.
Proof.
  intros Hp Hs. unfold log_outcome.
  destruct (fault_at E (db_ops (st_world st))) as [msg|] eqn:Hf.
  - eexists _, []. split; [apply (log_visitor_fault _ _ _ _ _ _ Hf)|].
    cbn. rewrite app_nil_r. repeat split.
  - eexists _, [_]. split; [apply (log_visitor_ok _ _ _ _ _ Hf Hp)|].
    cbn. repeat split. eexists. split; [reflexivity|].
    unfold row_of, logged_row. cbn. rewrite Hs. repeat split.
Qed.

Lemma before_request_unfold E r st :
  before_request E r st =
  if logged_path r then log_visitor (request.path r) "VISIT" E r (ensure_session E st)
  else (Ok tt, ensure_session E st).
Proof.
  unfold before_request, ensure_session, logged_path, bind, session_get, the_request,
    uuid4, session_set, ret.
  destruct (st_session st !! "session_id");
    destruct (negb _ && negb _); reflexivity.
Qed.

Lemma ensure_session_spec E st :
  exists sid,
    st_session (ensure_session E st) !! "session_id" = Some sid
    /\ (forall s0, st_session st !! "session_id" = Some s0 ->
          sid = s0 /\ st_session (ensure_session E st) = st_session st)
    /\ (st_session st !! "session_id" = None -> sid = uuid_at E (uuid_draws (st_world st)))
    /\ st_pending (ensure_session E st) = st_pending st
    /\ visitor_tbl (st_world (ensure_session E st)) = visitor_tbl (st_world st)
    /\ contact_tbl (st_world (ensure_session E st)) = contact_tbl (st_world st)
    /\ db_ops (st_world (ensure_session E st)) = db_ops (st_world st).
Proof.
  unfold ensure_session.
  destruct (st_session st !! "session_id") as [s0|] eqn:Hs.
  - exists s0. repeat split; congruence.
  - eexists. cbn. rewrite lookup_insert_eq. repeat split; congruence.
Qed.

(** ** The views *)

Lemma page_view_effect E r st page action template sid :
  st_pending st = [] ->
  st_session st !! "session_id" = Some sid ->
  exists st' new,
    bind (log_visitor page action) (fun _ => render_template template) E r st
    = (match template_fault E template with
       | Some msg => Raise (TemplateError msg)
       | None => Ok (Rendered template)
       end, st')
    /\ st_pending st' = []
    /\ st_session st' = st_session st
    /\ contact_tbl (st_world st') = contact_tbl (st_world st)
    /\ visitor_tbl (st_world st') = visitor_tbl (st_world st) ++ new
    /\ log_outcome E st sid page action new.
Proof.
  intros Hp Hs.
  destruct (log_visitor_effect E r st page action sid Hp Hs)
    as (st' & new & Hrun & H1 & H2 & H3 & H4 & _ & H5).
  exists st', new. unfold bind. rewrite Hrun. unfold render_template.
  split; [destruct (template_fault E template); reflexivity|].
  repeat split; assumption.
Qed.

Lemma log_outcome_length E st sid page action new :
  log_outcome E st sid page action new ->
  (length new <= 1)%nat
  /\ (forall v, v ∈ new -> row_of sid page action v)
  /\ (fault_at E (db_ops (st_world st)) = None -> length new = 1%nat)
  /\ (fault_at E (db_ops (st_world st)) <> None -> new = []).
Proof.
  unfold log_outcome. destruct (fault_at E (db_ops (st_world st))).
  - intros ->. simpl. split; [lia|]. split; [|split; congruence].
    intros v Hv. inversion Hv.
  - intros (v0 & -> & Hv0). simpl. split; [lia|]. split; [|split; congruence].
    intros v Hv. apply list_elem_of_singleton in Hv. subst. exact Hv0.
Qed.

(** The contact handler from a clean unit of work. *)
Lemma contact_submit_effect E r st sid :
  st_pending st = [] ->
  st_session st !! "session_id" = Some sid ->
  exists st' resp vw cw,
    contact_submit E r st = (Ok resp, st')
    /\ st_session st' = st_session st
    /\ visitor_tbl (st_world st') = visitor_tbl (st_world st) ++ vw
    /\ contact_tbl (st_world st') = contact_tbl (st_world st) ++ cw
    /\ (length vw <= 1)%nat
    /\ (forall v, v ∈ vw ->
          row_of sid "/contact" ("CONTACT_SUBMIT:" +:+ fmt_opt (request.form r !! "name")) v)
    /\ (fault_at E (db_ops (st_world st)) = None ->
        fault_at E (S (db_ops (st_world st))) = None ->
        forall n e m,
          request.form r !! "name" = Some n ->
          request.form r !! "email" = Some e ->
          request.form r !! "message" = Some m ->
          resp = Jsonify contact_success
          /\ (exists c, cw = [c]
                /\ ContactMessage.name c = n /\ ContactMessage.email c = e
                /\ ContactMessage.message c = m
                /\ ContactMessage.ip_address c = get_client_ip r
                /\ ContactMessage.read c = false)
          /\ (exists v, vw = [v])).
Proof.
  intros Hp Hs. destruct st as [w p s]. simpl in Hp, Hs. subst p.
  unfold contact_submit, try_except.
  unfold bind at 1 2 3. unfold the_request at 1, db_add at 1, db_commit at 1.
  cbn [st_world st_pending st_session set_world set_pending set_session app].
  destruct (fault_at E (db_ops w)) as [msg|] eqn:Hf.
  - (* the engine refuses the commit *)
    eexists _, _, [], []. cbn. rewrite !app_nil_r.
    do 4 (split; [reflexivity|]). split; [lia|]. split; [intros v Hv; inversion Hv|].
    intros Hok _. congruence.
  - destruct (request.form r !! "name") as [n|] eqn:Hn;
      destruct (request.form r !! "email") as [e|] eqn:He;
      destruct (request.form r !! "message") as [m|] eqn:Hm;
      cbn [flush insert_row];
      try (eexists _, _, [], []; cbn; rewrite !app_nil_r;
           do 4 (split; [reflexivity|]); split; [lia|];
           split; [intros v Hv; inversion Hv | intros; congruence ]).
    (* the message is stored, the Visit Logger runs *)
    cbn [st_world st_pending st_session set_world set_pending set_session].
    unfold bind.
    match goal with
    | |- context [log_visitor ?pg ?act E r ?st0] =>
        destruct (log_visitor_effect E r st0 pg act sid eq_refl Hs)
          as (st' & new & Hrun & H1 & H2 & H3 & H4 & _ & H5)
    end.
    rewrite Hrun. cbn in H2, H3, H4.
    eexists st', _, new, [_]. split; [reflexivity|].
    apply log_outcome_length in H5. destruct H5 as (L1 & L2 & L3 & _).
    split; [exact H2|]. split; [exact H4|]. split; [exact H3|]. split; [exact L1|].
    split; [exact L2|].
    intros _ Hok n' e' m' ? ? ?. simplify_eq.
    split; [reflexivity|]. split.
    + eexists. split; [reflexivity|]. repeat split.
    + cbn in L3. specialize (L3 Hok).
      destruct new as [|v [|]]; simpl in *; try lia. eauto.
Qed.

(** A view that only reads adds nothing. *)
Lemma unchanged_view_effect {A} (m : M A) E r st (P : Visitor.t -> Prop) :
  keeps unchanged m ->
  exists o st' vw cw,
    m E r st = (o, st')
    /\ st_session st' = st_session st
    /\ visitor_tbl (st_world st') = visitor_tbl (st_world st) ++ vw
    /\ contact_tbl (st_world st') = contact_tbl (st_world st) ++ cw
    /\ (length vw <= 1)%nat
    /\ (forall v, v ∈ vw -> P v)
    /\ vw = [].
Proof.
  intros Hk. specialize (Hk E r st).
  destruct (m E r st) as [o st']. destruct Hk as (K1 & K2 & K3 & K4).
  exists o, st', [], []. rewrite !app_nil_r. simpl.
  do 4 (split; [assumption || reflexivity|]). split; [lia|].
  split; [intros v Hv; inversion Hv | reflexivity].
Qed.

(** What the view of an endpoint does to the tables and the session. *)
Lemma view_effect E r st ep sid :
  st_pending st = [] ->
  st_session st !! "session_id" = Some sid ->
  exists o st' vw cw,
    view ep (request.method r) E r st = (o, st')
    /\ st_session st' = st_session st
    /\ visitor_tbl (st_world st') = visitor_tbl (st_world st) ++ vw
    /\ contact_tbl (st_world st') = contact_tbl (st_world st) ++ cw
    /\ (length vw <= 1)%nat
    /\ (forall v, v ∈ vw ->
          exists pg act, own_action ep r = Some (pg, act) /\ row_of sid pg act v)
    /\ (storage_ok E -> is_read_method (request.method r) = true ->
        own_action ep r <> None -> length vw = 1%nat).
Proof.
  intros Hp Hs. unfold view, own_action.
  assert (Hframe : forall (m : M response), keeps unchanged m ->
    exists o st' vw cw,
      m E r st = (o, st')
      /\ st_session st' = st_session st
      /\ visitor_tbl (st_world st') = visitor_tbl (st_world st) ++ vw
      /\ contact_tbl (st_world st') = contact_tbl (st_world st) ++ cw
      /\ (length vw <= 1)%nat
      /\ (forall v, v ∈ vw ->
            exists pg act, (@None (string * string)) = Some (pg, act) /\ row_of sid pg act v)
      /\ (storage_ok E -> is_read_method (request.method r) = true ->
          (@None (string * string)) <> None -> length vw = 1%nat)).
  { intros m Hk.
    destruct (unchanged_view_effect m E r st
                (fun v => exists pg act, (@None (string * string)) = Some (pg, act)
                                         /\ row_of sid pg act v) Hk)
      as (o & st' & vw & cw & H1 & H2 & H3 & H4 & H5 & H6 & H7).
    exists o, st', vw, cw. do 5 (split; [assumption|]). split; [assumption|].
    intros _ _ Hn. congruence. }
  assert (Hpage : forall page action template,
    exists o st' vw cw,
      bind (log_visitor page action) (fun _ => render_template template) E r st = (o, st')
      /\ st_session st' = st_session st
      /\ visitor_tbl (st_world st') = visitor_tbl (st_world st) ++ vw
      /\ contact_tbl (st_world st') = contact_tbl (st_world st) ++ cw
      /\ (length vw <= 1)%nat
      /\ (forall v, v ∈ vw ->
            exists pg act, Some (page, action) = Some (pg, act) /\ row_of sid pg act v)
      /\ (storage_ok E -> is_read_method (request.method r) = true ->
          Some (page, action) <> None -> length vw = 1%nat)).
  { intros page action template.
    destruct (page_view_effect E r st page action template sid Hp Hs)
      as (st' & new & Hrun & H1 & H2 & H3 & H4 & H5).
    apply log_outcome_length in H5. destruct H5 as (L1 & L2 & L3 & _).
    eexists _, st', new, []. rewrite app_nil_r.
    split; [exact Hrun|]. do 4 (split; [assumption|]). split.
    - intros v Hv. exists page, action. split; [reflexivity | apply L2, Hv].
    - intros Hok _ _. apply L3, Hok. }
  destruct (String.eqb (request.method r) "OPTIONS").
  { apply Hframe, keeps_ret; typeclasses eauto. }
  destruct (is_read_method (request.method r)).
  - destruct ep;
      first [ apply Hpage
            | apply Hframe;
              first [ apply unchanged_index | apply unchanged_admin
                    | apply unchanged_admin_logs | apply unchanged_admin_stats
                    | apply unchanged_admin_messages | apply unchanged_export_logs
                    | apply keeps_send_static_file; typeclasses eauto ] ].
  - destruct ep; try (apply Hframe, keeps_ret; typeclasses eauto).
    destruct (String.eqb (request.method r) "POST");
      [| apply Hframe, keeps_ret; typeclasses eauto ].
    destruct (contact_submit_effect E r st sid Hp Hs)
      as (st' & resp & vw & cw & Hrun & H1 & H2 & H3 & H4 & H5 & _).
    exists (Ok resp), st', vw, cw. do 5 (split; [assumption|]). split.
    + intros v Hv. eexists _, _. split; [reflexivity | apply H5, Hv].
    + intros _ Hread. discriminate.
Qed.

(** ** The request cycle *)

Lemma before_request_effect E r cookie w :
  exists st1 sid mw,
    before_request E r (mkState w [] cookie) = (Ok tt, st1)
    /\ st_pending st1 = []
    /\ st_session st1 !! "session_id" = Some sid
    /\ (forall s0, cookie !! "session_id" = Some s0 -> sid = s0 /\ st_session st1 = cookie)
    /\ (cookie !! "session_id" = None -> sid = uuid_at E (uuid_draws w))
    /\ visitor_tbl (st_world st1) = visitor_tbl w ++ mw
    /\ contact_tbl (st_world st1) = contact_tbl w
    /\ (if logged_path r
        then log_outcome E (mkState w [] cookie) sid (request.path r) "VISIT" mw
        else mw = []).
Proof.
  rewrite before_request_unfold.
  destruct (ensure_session_spec E (mkState w [] cookie))
    as (sid & S1 & S2 & S3 & S4 & S5 & S6 & S7).
  cbn [st_world st_pending st_session] in *.
  destruct (logged_path r).
  - destruct (log_visitor_effect E r _ (request.path r) "VISIT" sid S4 S1)
      as (st1 & mw & Hrun & H1 & H2 & H3 & H4 & _ & H5).
    exists st1, sid, mw. split; [exact Hrun|]. split; [exact H1|].
    split; [congruence|]. split.
    { intros s0 Hs0. destruct (S2 s0 Hs0). split; congruence. }
    split; [exact S3|]. split; [congruence|]. split; [congruence|].
    unfold log_outcome in *. cbn [st_world]. rewrite <- S7. exact H5.
  - exists (ensure_session E (mkState w [] cookie)), sid, [].
    rewrite app_nil_r. repeat split; try assumption; apply (S2 _ H).
Qed.

Lemma handle_request_effect E r cookie w :
  exists resp cookie' w' sid mw vw cw,
    handle_request E r cookie w = (resp, cookie', w')
    /\ cookie' !! "session_id" = Some sid
    /\ (forall s0, cookie !! "session_id" = Some s0 -> sid = s0 /\ cookie' = cookie)
    /\ (cookie !! "session_id" = None -> sid = uuid_at E (uuid_draws w))
    /\ visitor_tbl w' = visitor_tbl w ++ mw ++ vw
    /\ contact_tbl w' = contact_tbl w ++ cw
    /\ (if logged_path r
        then log_outcome E (mkState w [] cookie) sid (request.path r) "VISIT" mw
        else mw = [])
    /\ (length vw <= 1)%nat
    /\ (forall v, v ∈ vw ->
          exists pg act, view_action r = Some (pg, act) /\ row_of sid pg act v)
    /\ (storage_ok E -> is_read_method (request.method r) = true ->
        view_action r <> None -> length vw = 1%nat).
Proof.
  destruct (before_request_effect E r cookie w)
    as (st1 & sid & mw & Hrun & B1 & B2 & B3 & B4 & B5 & B6 & B7).
  unfold handle_request, full_dispatch_request, bind. rewrite Hrun.
  unfold dispatch_request, bind, the_request, view_action.
  destruct (match_route (request.path r)) as [ep|].
  - destruct (view_effect E r st1 ep sid B1 B2)
      as (o & st2 & vw & cw & Hv & V1 & V2 & V3 & V4 & V5 & V6).
    rewrite Hv.
    exists (match o with Ok resp => resp | Raise _ => HttpError 500 end),
      (st_session st2),
      (match o with Ok _ => st_world st2 | Raise _ => log_exception r (st_world st2) end),
      sid, mw, vw, cw.
    split; [destruct o; reflexivity|].
    split; [congruence|]. split.
    { intros s0 Hs0. destruct (B3 s0 Hs0). split; congruence. }
    split; [exact B4|].
    split; [destruct o; cbn [log_exception add_log visitor_tbl];
            rewrite V2, B5, app_assoc; reflexivity|].
    split; [destruct o; cbn [log_exception add_log contact_tbl]; congruence|].
    split; [exact B7|]. split; [exact V4|].
    split; [exact V5 | exact V6].
  - exists (HttpError 404), (st_session st1), (st_world st1), sid, mw, [], [].
    rewrite !app_nil_r. split; [reflexivity|]. split; [exact B2|].
    split; [exact B3|]. split; [exact B4|]. split; [exact B5|]. split; [exact B6|].
    split; [exact B7|]. split; [simpl; lia|]. split.
    + intros v Hv. inversion Hv.
    + intros _ _ Hn. congruence.
Qed.

Lemma startswith_cons s a p :
  Py.startswith s (String a p) = true ->
  exists t, s = String a t /\ Py.startswith t p = true.
Proof.
  destruct s as [|b t]; simpl; [discriminate|].
  destruct (Ascii.eqb a b) eqn:Hab; [|discriminate].
  apply Ascii.eqb_eq in Hab. subst. eauto.
Qed.

(** A path under the static prefix reaches the static view or no view. *)
Lemma match_route_static path :
  Py.startswith path "/static" = true ->
  match_route path = None \/ exists f, match_route path = Some (ep_static f).
Proof.
  intros H.
  repeat (apply startswith_cons in H; destruct H as (? & -> & H)).
  unfold match_route. simpl.
  repeat match goal with
         | |- context [match ?x with EmptyString => _ | String _ _ => _ end] => destruct x
         | |- context [if ?b then _ else _] => destruct b
         end; eauto.
Qed.

Lemma view_action_static r :
  Py.startswith (request.path r) "/static" = true -> view_action r = None.
Proof.
  intros H. unfold view_action.
  destruct (match_route_static _ H) as [-> | (f & ->)]; [reflexivity|].
  unfold own_action.
  repeat match goal with |- context [if ?b then _ else _] => destruct b end; reflexivity.
Qed.

Lemma no_own_row r sid (vw : list Visitor.t) :
  view_action r = None ->
  (forall v, v ∈ vw ->
     exists pg act, view_action r = Some (pg, act) /\ row_of sid pg act v) ->
  vw = [].
Proof.
  intros Hn H. destruct vw as [|v rest]; [reflexivity|].
  destruct (H v) as (pg & act & Hv & _); [left|]. congruence.
Qed.

(** C7: handling a request to the log-retrieval path /admin/logs, or to a
    path under the static prefix, leaves the Visitor table as it was, for
    GET as for any other method. *)
Theorem unlogged_paths_add_no_row E r cookie w :
  request.path r = "/admin/logs" \/ Py.startswith (request.path r) "/static" = true ->
  visitor_tbl (snd (handle_request E r cookie w)) = visitor_tbl w.
Proof.
  intros Hpath.
  destruct (handle_request_effect E r cookie w)
    as (resp & cookie' & w' & sid & mw & vw & cw & Hrun & _ & _ & _ & Hv & _ & Hm & _ & Hown & _).
  rewrite Hrun. cbn [snd].
  assert (Hl : logged_path r = false).
  { unfold logged_path. destruct Hpath as [-> | ->]; reflexivity. }
  assert (Hn : view_action r = None).
  { destruct Hpath as [Hp | Hp]; [|apply view_action_static, Hp].
    unfold view_action, own_action. rewrite Hp. cbn [match_route String.eqb Ascii.eqb Bool.eqb].
    repeat match goal with |- context [if ?b then _ else _] => destruct b end; reflexivity. }
  rewrite Hl in Hm. subst mw.
  rewrite (no_own_row r sid vw Hn Hown) in Hv. rewrite Hv. apply app_nil_r.
Qed.

Lemma unlogged_paths_add_no_row_witness :
  visitor_tbl (snd (handle_request healthy_env get_admin_logs ∅ empty_world)) = [].
Proof.
  exact (unlogged_paths_add_no_row healthy_env get_admin_logs ∅ empty_world
           (or_introl eq_refl)).
Defined.

(** C1, as stated, fails: on a healthy store a GET of /portfolio appends
    two Visitor rows, the one of the middleware and the one of the view. *)
Lemma portfolio_appends_two_rows :
  logged_path get_portfolio = true
  /\ visitor_tbl empty_world = []
  /\ length (visitor_tbl (snd (handle_request healthy_env get_portfolio ∅ empty_world))) = 2%nat
  /\ map Visitor.action (rows_added healthy_env get_portfolio ∅ empty_world)
     = [Some "VISIT"; Some "PORTFOLIO_VIEW"].
Proof. repeat split; vm_compute; reflexivity. Qed.

(** C1 (amended): for a request whose path is neither under the static
    prefix nor the log-retrieval path, the Visitor table grows by the rows
    [mw] of the middleware followed by the rows [vw] of the view.  The
    middleware appends exactly one row, tagged VISIT for the request path,
    or none when the engine raises at its commit.  The view appends at most
    one further row, and only a view that logs by itself (the pages
    /portfolio, /about and /contact, the contact submission), with its own
    page and action tag; a page view appends exactly one when the storage is
    healthy.  No request appends more than two rows. *)
Theorem visitor_rows_per_request E r cookie w :
  logged_path r = true ->
  exists mw vw,
    visitor_tbl (snd (handle_request E r cookie w)) = visitor_tbl w ++ mw ++ vw
    /\ (length mw <= 1)%nat
    /\ (forall v, v ∈ mw ->
          Visitor.page v = request.path r /\ Visitor.action v = Some "VISIT")
    /\ (fault_at E (db_ops w) = None -> length mw = 1%nat)
    /\ (fault_at E (db_ops w) <> None -> mw = [])
    /\ (length vw <= 1)%nat
    /\ (forall v, v ∈ vw ->
          exists pg act, view_action r = Some (pg, act)
                         /\ Visitor.page v = pg /\ Visitor.action v = Some act)
    /\ (storage_ok E -> is_read_method (request.method r) = true ->
        view_action r <> None -> length vw = 1%nat)
    /\ (length (mw ++ vw) <= 2)%nat.
Proof.
  intros Hl.
  destruct (handle_request_effect E r cookie w)
    as (resp & cookie' & w' & sid & mw & vw & cw
        & Hrun & _ & _ & _ & Hv & _ & Hm & Hlen & Hown & Hone).
  rewrite Hrun, Hl in *. cbn [snd].
  apply log_outcome_length in Hm. cbn [st_world] in Hm.
  destruct Hm as (M1 & M2 & M3 & M4).
  exists mw, vw. split; [exact Hv|]. split; [exact M1|]. split.
  { intros v Hin. destruct (M2 v Hin) as (_ & ? & ?). split; assumption. }
  split; [exact M3|]. split; [exact M4|]. split; [exact Hlen|]. split.
  { intros v Hin. destruct (Hown v Hin) as (pg & act & ? & _ & ? & ?). eauto. }
  split; [exact Hone|].
  rewrite length_app. lia.
Qed.

Lemma visitor_rows_per_request_witness :
  exists mw vw,
    visitor_tbl (snd (handle_request healthy_env get_index ∅ empty_world)) = mw ++ vw
    /\ length mw = 1%nat /\ vw = [].
Proof.
  destruct (visitor_rows_per_request healthy_env get_index ∅ empty_world eq_refl)
    as (mw & vw & Hv & _ & _ & Hm & _ & _ & Hown & _).
  exists mw, vw. split; [exact Hv|]. split; [exact (Hm eq_refl)|].
  destruct vw as [|v rest]; [reflexivity|].
  destruct (Hown v) as (pg & act & Habs & _); [left|]. discriminate Habs.
Defined.

(** ** Sessions *)





(** ** The contact handler *)

(** Engine operations of the Visit Logger and the middleware. *)

Lemma insert_row_db_ops E x w w' : insert_row E x w = inr w' -> db_ops w' = db_ops w.
Proof.
  destruct x as [sid ip ua pg act ref hst mth plat brw | [nm|] [em|] [msg|] ip];
    cbn; intros [= <-]; reflexivity.
Qed.

Lemma flush_db_ops E xs : forall w w', flush E xs w = inr w' -> db_ops w' = db_ops w.
Proof.
  induction xs as [|x xs IH]; intros w w'; cbn [flush].
  - intros [= <-]. reflexivity.
  - destruct (insert_row E x w) as [e|w1] eqn:Hins; [discriminate|].
    intros Hfl. rewrite (IH _ _ Hfl). apply (insert_row_db_ops _ _ _ _ Hins).
Qed.

Lemma log_visitor_ops E r st page action :
  db_ops (st_world (snd (log_visitor page action E r st))) = S (db_ops (st_world st)).
Proof.
  rewrite log_visitor_unfold. unfold db_commit, before_commit.
  cbn [st_world st_pending set_world set_pending tick_uuid db_ops].
  destruct (fault_at E (db_ops (st_world st))); [reflexivity|].
  match goal with |- context [flush E ?xs ?w0] => destruct (flush E xs w0) as [e|w'] eqn:Hfl end.
  - reflexivity.
  - cbn. apply (flush_db_ops _ _ _ _ Hfl).
Qed.

Lemma before_request_ops E r st :
  logged_path r = true ->
  db_ops (st_world (snd (before_request E r st))) = S (db_ops (st_world st)).
Proof.
  intros Hl. rewrite before_request_unfold, Hl, log_visitor_ops.
  destruct (ensure_session_spec E st) as (sid & _ & _ & _ & _ & _ & _ & Hops).
  rewrite Hops. reflexivity.
Qed.

Lemma log_outcome_actions E st sid page action new :
  log_outcome E st sid page action new ->
  map Visitor.action new = attempt E (db_ops (st_world st)) action.
Proof.
  unfold log_outcome, attempt. destruct (fault_at E (db_ops (st_world st))).
  - intros ->. reflexivity.
  - intros (v & -> & _ & _ & Hv). cbn. rewrite Hv. reflexivity.
Qed.

(** C2, as stated, fails: all three fields are present, the engine accepts
    the message and refuses the commit of the Visit Logger; the success
    payload is returned and the message stored, yet no Visitor row carries
    the submitter's name.  When the engine refuses every commit, the error
    payload is returned and nothing is stored. *)
Lemma contact_submit_without_tagged_row :
  request.form post_contact !! "name" = Some "Ann"
  /\ request.form post_contact !! "email" = Some "ann@example.org"
  /\ request.form post_contact !! "message" = Some "Hello"
  /\ fst (fst (handle_request flaky_env post_contact ∅ empty_world)) = Jsonify contact_success
  /\ map ContactMessage.name
       (contact_tbl (snd (handle_request flaky_env post_contact ∅ empty_world))) = ["Ann"]
  /\ List.filter (submit_tagged "Ann")
       (visitor_tbl (snd (handle_request flaky_env post_contact ∅ empty_world))) = []
  /\ fst (fst (handle_request broken_env post_contact ∅ empty_world)) = Jsonify contact_error
  /\ contact_tbl (snd (handle_request broken_env post_contact ∅ empty_world)) = [].
Proof. repeat split; vm_compute; reflexivity. Qed.

(** C2 (amended): for a contact-form POST with the three fields name, email
    and message present, when the storage engine accepts the two commits
    of the handler (the commit of the message and the commit of the Visit
    Logger call that follows it), the request returns the success payload,
    appends exactly one ContactMessage row holding the fields and the
    client IP, and appends exactly one Visitor row whose action tag is
    CONTACT_SUBMIT: followed by the submitter's name.  That row comes after
    the VISIT row of the middleware, which is there exactly when the engine
    accepted the middleware's own commit, the first operation of the
    request; nothing is assumed about that operation or any other. *)
Theorem contact_submit_rows E r cookie w name email message :
  request.path r = "/contact" ->
  request.method r = "POST" ->
  request.form r !! "name" = Some name ->
  request.form r !! "email" = Some email ->
  request.form r !! "message" = Some message ->
  fault_at E (S (db_ops w)) = None ->
  fault_at E (S (S (db_ops w))) = None ->
  exists cookie' w' c mw v1,
    handle_request E r cookie w = (Jsonify contact_success, cookie', w')
    /\ contact_tbl w' = contact_tbl w ++ [c]
    /\ ContactMessage.name c = name
    /\ ContactMessage.email c = email
    /\ ContactMessage.message c = message
    /\ ContactMessage.ip_address c = get_client_ip r
    /\ visitor_tbl w' = visitor_tbl w ++ mw ++ [v1]
    /\ map Visitor.action mw = attempt E (db_ops w) "VISIT"
    /\ Visitor.page v1 = "/contact"
    /\ Visitor.action v1 = Some ("CONTACT_SUBMIT:" +:+ name)
    /\ List.filter (submit_tagged name) (mw ++ [v1]) = [v1].
Proof.
  intros Hpath Hmeth Hn He Hm Hok1 Hok2.
  assert (Hl : logged_path r = true) by (unfold logged_path; rewrite Hpath; reflexivity).
  pose proof (before_request_ops E r (mkState w [] cookie) Hl) as Hops.
  destruct (before_request_effect E r cookie w)
    as (st1 & sid & mw & Hrun & B1 & B2 & _ & _ & B5 & B6 & B7).
  rewrite Hrun in Hops. cbn [snd st_world] in Hops.
  rewrite Hl in B7. apply log_outcome_actions in B7. cbn [st_world] in B7.
  destruct (contact_submit_effect E r st1 sid B1 B2)
    as (st2 & resp & vw & cw & Hsub & _ & C2 & C3 & _ & C5 & C6).
  rewrite Hops in C6.
  destruct (C6 Hok1 Hok2 name email message Hn He Hm)
    as (-> & (c & -> & F1 & F2 & F3 & F4 & _) & (v1 & ->)).
  destruct (C5 v1) as (_ & Hp1 & Ha1); [left|].
  rewrite Hn in Ha1. cbn [fmt_opt default from_option id] in Ha1.
  exists (st_session st2), (st_world st2), c, mw, v1.
  split.
  { unfold handle_request, full_dispatch_request, bind. rewrite Hrun.
    unfold dispatch_request, bind, the_request. rewrite Hpath.
    change (match_route "/contact") with (Some ep_contact). cbn iota.
    rewrite Hmeth. change (view ep_contact "POST") with contact_submit.
    rewrite Hsub. reflexivity. }
  split; [congruence|]. do 4 (split; [assumption|]).
  split; [rewrite C2, B5, <- app_assoc; reflexivity|].
  do 3 (split; [assumption|]).
  assert (Hmw : List.filter (submit_tagged name) mw = []).
  { unfold attempt in B7. destruct (fault_at E (db_ops w)).
    - destruct mw; [reflexivity | discriminate].
    - destruct mw as [|v0 [|]]; try discriminate. injection B7 as Hv0.
      unfold submit_tagged. cbn [List.filter].
      rewrite bool_decide_eq_false_2 by (rewrite Hv0; discriminate). reflexivity. }
  rewrite List.filter_app, Hmw. unfold submit_tagged. cbn [List.filter app].
  rewrite bool_decide_eq_true_2 by assumption. reflexivity.
Qed.

Lemma contact_submit_rows_witness :
  exists cookie' w' c v1,
    handle_request first_fails_env post_contact ∅ empty_world
    = (Jsonify contact_success, cookie', w')
    /\ contact_tbl w' = [c]
    /\ ContactMessage.name c = "Ann"
    /\ visitor_tbl w' = [v1]
    /\ Visitor.action v1 = Some ("CONTACT_SUBMIT:" +:+ "Ann").
Proof.
  destruct (contact_submit_rows first_fails_env post_contact ∅ empty_world
              "Ann" "ann@example.org" "Hello" eq_refl eq_refl eq_refl eq_refl eq_refl
              eq_refl eq_refl)
    as (cookie' & w' & c & mw & v1 & H1 & H2 & H3 & _ & _ & _ & H7 & H8 & _ & H10 & _).
  destruct mw as [|v0 mw]; [|discriminate H8].
  exists cookie', w', c, v1. repeat split; assumption.
Defined.

(** ** Admin statistics *)

Lemma distinct_from_size (l : list string) : forall seen,
  length (distinct_from seen l)
  = size ((list_to_set l : gset string) ∖ list_to_set seen).
Proof.
  induction l as [|x r IH]; intros seen; cbn [distinct_from].
  - rewrite list_to_set_nil.
    replace (∅ ∖ list_to_set seen : gset string) with (∅ : gset string).
    + symmetry. apply size_empty.
    + apply set_eq. intros y. rewrite elem_of_difference, elem_of_empty. tauto.
  - rewrite list_to_set_cons. case_bool_decide as Hx.
    + rewrite IH. f_equal. apply set_eq. intros y.
      rewrite !elem_of_difference, elem_of_union, elem_of_singleton, !elem_of_list_to_set.
      split; [tauto|]. intros [[->|?] ?]; tauto.
    + cbn [length]. rewrite IH, list_to_set_cons.
      replace (({[x]} ∪ list_to_set r) ∖ list_to_set seen : gset string)
        with ({[x]} ∪ (list_to_set r ∖ ({[x]} ∪ list_to_set seen)) : gset string).
      * rewrite (size_union (C:=gset string) {[x]}), size_singleton; [reflexivity|].
        apply elem_of_disjoint. intros y Hy1 Hy2.
        rewrite elem_of_singleton in Hy1.
        rewrite elem_of_difference, elem_of_union, elem_of_singleton in Hy2. tauto.
      * apply set_eq. intros y.
        rewrite !elem_of_union, !elem_of_difference, !elem_of_union, elem_of_singleton,
          !elem_of_list_to_set.
        destruct (decide (y = x)) as [->|]; tauto.
Qed.

Lemma count_distinct_ips_spec w :
  count_distinct_ips w = distinct_ip_count (visitor_tbl w).
Proof.
  unfold count_distinct_ips, distinct_ip_count, distinct. rewrite distinct_from_size.
  do 2 f_equal. rewrite list_to_set_nil. apply set_eq. intros y.
  rewrite elem_of_difference, elem_of_empty. tauto.
Qed.

Lemma admin_stats_unique E r st :
  exists body st',
    admin_stats E r st = (Ok (Jsonify body), st')
    /\ (forall j, json_field "unique_visitors" body = Some j ->
                  j = JInt (count_distinct_ips (st_world st)))
    /\ (storage_ok E ->
        json_field "unique_visitors" body = Some (JInt (count_distinct_ips (st_world st)))).
Proof.
  destruct st as [w p s].
  unfold admin_stats, try_except, bind, db_query, db_query_now, logger, ret.
  cbn [st_world st_pending st_session set_world tick_db db_ops].
  repeat match goal with
         | |- context [fault_at E ?n] =>
             let H := fresh "Hf" in destruct (fault_at E n) eqn:H
         end;
    (eexists _, _; split; [reflexivity|]; split;
     [ cbn; intros j Hj; first [discriminate | injection Hj as <-; reflexivity]
     | intros Hok; rewrite ?Hok in *; try discriminate; reflexivity ]).
Qed.

Lemma admin_logs_unique E r st :
  exists body st',
    admin_logs E r st = (Ok (Jsonify body), st')
    /\ (forall j, json_field "unique_visitors" body = Some j ->
                  j = JInt (count_distinct_ips (st_world st)))
    /\ (storage_ok E ->
        json_field "unique_visitors" body = Some (JInt (count_distinct_ips (st_world st)))).
Proof.
  destruct st as [w p s].
  unfold admin_logs, try_except, bind, db_query, logger, ret.
  cbn [st_world st_pending st_session set_world tick_db db_ops].
  repeat match goal with
         | |- context [fault_at E ?n] =>
             let H := fresh "Hf" in destruct (fault_at E n) eqn:H
         end;
    (eexists _, _; split; [reflexivity|]; split;
     [ cbn; intros j Hj; first [discriminate | injection Hj as <-; reflexivity]
     | intros Hok; rewrite ?Hok in *; try discriminate; reflexivity ]).
Qed.

(** C8: the unique_visitors value of the admin stats and admin logs
    answers, whenever the answer carries one, is the number of distinct
    ip_address values among the Visitor rows, and it is carried whenever the
    engine accepts the queries; it is not the number of distinct sessions:
    for two sessions behind one address it is 1. *)
Theorem unique_visitors_counts_ips E r st :
  (exists body st',
     admin_stats E r st = (Ok (Jsonify body), st')
     /\ (forall j, json_field "unique_visitors" body = Some j ->
                   j = JInt (distinct_ip_count (visitor_tbl (st_world st))))
     /\ (storage_ok E ->
         json_field "unique_visitors" body
         = Some (JInt (distinct_ip_count (visitor_tbl (st_world st))))))
  /\ (exists body st',
        admin_logs E r st = (Ok (Jsonify body), st')
        /\ (forall j, json_field "unique_visitors" body = Some j ->
                      j = JInt (distinct_ip_count (visitor_tbl (st_world st))))
        /\ (storage_ok E ->
            json_field "unique_visitors" body
            = Some (JInt (distinct_ip_count (visitor_tbl (st_world st))))))
  /\ (exists body st',
        admin_stats healthy_env get_index (mkState shared_ip_world [] ∅)
        = (Ok (Jsonify body), st')
        /\ json_field "unique_visitors" body = Some (JInt 1)
        /\ distinct_session_count (visitor_tbl shared_ip_world) = 2).
Proof.
  rewrite <- count_distinct_ips_spec.
  split; [apply admin_stats_unique|]. split; [apply admin_logs_unique|].
  eexists _, _. split; [vm_compute; reflexivity|].
  split; vm_compute; reflexivity.
Qed.

(** ** CSV export *)

Lemma append_assoc (a b c : string) : (a +:+ b) +:+ c = a +:+ (b +:+ c).
Proof.
  induction a as [|x a IH]; [reflexivity|].
  change (String x ((a +:+ b) +:+ c) = String x (a +:+ (b +:+ c))). f_equal. exact IH.
Qed.

Lemma append_empty_r (a : string) : a +:+ EmptyString = a.
Proof.
  induction a as [|x a IH]; [reflexivity|].
  change (String x (a +:+ EmptyString) = String x a). f_equal. exact IH.
Qed.

Lemma length_insert_desc {A} (key : A -> Z) x l :
  length (insert_desc key x l) = S (length l).
Proof.
  induction l as [|y l IH]; simpl; [reflexivity|].
  destruct (key y <=? key x); simpl; [reflexivity | rewrite IH; reflexivity].
Qed.

Lemma length_order_by_desc {A} (key : A -> Z) l :
  length (order_by_desc key l) = length l.
Proof.
  induction l as [|x l IH]; simpl; [reflexivity|].
  rewrite length_insert_desc, IH. reflexivity.
Qed.

(** Every row dictionary has the twelve export columns as its keys, so
    [writerows] accepts them all and writes one line each. *)
Lemma writerows_export vs : forall output,
  csv.writerows export_columns (map export_row vs) output
  = inr (output +:+ export_lines export_columns vs).
Proof.
  induction vs as [|v vs IH]; intros output; cbn [map csv.writerows export_lines fold_right].
  - rewrite append_empty_r. reflexivity.
  - change (csv.dict_to_list export_columns (export_row v))
      with (@inr exn _ (map (fun k => match csv.get (export_row v) k with
                                      | Some x => csv.field_text x
                                      | None => EmptyString
                                      end) export_columns)).
    cbv iota. rewrite IH. fold (export_line export_columns v).
    rewrite append_assoc. reflexivity.
Qed.

(** C9: whenever the export answers with a CSV attachment: with zero
    Visitor rows its body is a single empty line, an empty header and no
    data row; with at least one row its first line is the header made of
    the keys of the first exported row, the twelve column names, followed by
    one line per row.  It answers with the attachment whenever the engine
    accepts the query. *)
Theorem export_header_from_first_row E r st :
  (forall body ct cd st',
     export_logs E r st = (Ok (Attachment body ct cd), st') ->
     (visitor_tbl (st_world st) = [] -> body = csv.lineterminator)
     /\ (forall first rest,
           order_by_desc Visitor.timestamp (visitor_tbl (st_world st)) = first :: rest ->
           body = csv.writerow (csv.keys (export_row first))
                  +:+ export_lines (csv.keys (export_row first)) (first :: rest)
           /\ csv.writerow (csv.keys (export_row first))
              = export_header_text +:+ csv.lineterminator))
  /\ (visitor_tbl (st_world st) <> [] ->
      order_by_desc Visitor.timestamp (visitor_tbl (st_world st)) <> [])
  /\ (fault_at E (db_ops (st_world st)) = None ->
      exists body cd st', export_logs E r st = (Ok (Attachment body "text/csv" cd), st')).
Proof.
  destruct st as [w p s]. cbn [st_world] in *.
  pose proof (length_order_by_desc Visitor.timestamp (visitor_tbl w)) as Hlen.
  split; [|split].
  - intros body ct cd st'.
    unfold export_logs, try_except, bind, db_query. cbn [st_world].
    destruct (fault_at E (db_ops w)) as [msg|]; [intros [=]|].
    destruct (order_by_desc Visitor.timestamp (visitor_tbl w)) as [|first0 rest0] eqn:Hrows.
    + intros [= <- _ _ _]. split; [reflexivity | intros ? ? [=]].
    + cbn [map]. change (csv.keys (export_row first0)) with export_columns.
      rewrite (writerows_export (first0 :: rest0)).
      intros [= <- _ _ _]. split.
      * intros Hnil. rewrite Hnil in Hlen. discriminate Hlen.
      * intros first rest [= <- <-]. split; reflexivity.
  - intros Hne Hnil. rewrite Hnil in Hlen. destruct (visitor_tbl w); [congruence|discriminate].
  - intros Hf. unfold export_logs, try_except, bind, db_query. cbn [st_world]. rewrite Hf.
    destruct (order_by_desc Visitor.timestamp (visitor_tbl w)) as [|first0 rest0].
    + eexists _, _, _. reflexivity.
    + cbn [map]. change (csv.keys (export_row first0)) with export_columns.
      rewrite (writerows_export (first0 :: rest0)).
      eexists _, _, _. reflexivity.
Qed.

Lemma export_header_from_first_row_witness :
  exists cd st',
    export_logs healthy_env get_index (mkState empty_world [] ∅)
    = (Ok (Attachment csv.lineterminator "text/csv" cd), st').
Proof.
  destruct (export_header_from_first_row healthy_env get_index (mkState empty_world [] ∅))
    as (Hshape & _ & Hlive).
  destruct (Hlive eq_refl) as (body & cd & st' & Hrun).
  exists cd, st'. rewrite <- (proj1 (Hshape _ _ _ _ Hrun) eq_refl). exact Hrun.
Defined.

(** Through the request cycle the export request is logged first: on an
    empty table and a healthy store the attachment has the header and the
    line of the request itself. *)
Lemma export_request_logs_itself :
  exists body cd,
    fst (fst (handle_request healthy_env get_export ∅ empty_world))
    = Attachment body "text/csv" cd
    /\ Py.startswith body (export_header_text +:+ csv.lineterminator) = true
    /\ length (visitor_tbl (snd (handle_request healthy_env get_export ∅ empty_world))) = 1%nat.
Proof. eexists _, _. repeat split; vm_compute; reflexivity. Qed.

(** * Further properties *)

(** ** Rows are only added, and describe the request *)

Section Grows.
Context (r : request.t) (P : Visitor.t -> Prop) (Q : ContactMessage.t -> Prop).

Lemma grows_refl st : grows P Q st st.
Proof.
  intros Hp. split; [exact Hp|].
  split; exists []; rewrite app_nil_r; split; (reflexivity || constructor).
Qed.

Lemma grows_trans a b c : grows P Q a b -> grows P Q b c -> grows P Q a c.
Proof.
  intros Hab Hbc Hp.
  destruct (Hab Hp) as (Hpb & (v1 & Hv1 & Hf1) & (c1 & Hc1 & Hg1)).
  destruct (Hbc Hpb) as (Hpc & (v2 & Hv2 & Hf2) & (c2 & Hc2 & Hg2)).
  split; [exact Hpc|]. split.
  - exists (v1 ++ v2). rewrite Hv2, Hv1, app_assoc. split; [reflexivity|].
    apply Forall_app. split; assumption.
  - exists (c1 ++ c2). rewrite Hc2, Hc1, app_assoc. split; [reflexivity|].
    apply Forall_app. split; assumption.
Qed.

(** A step that leaves tables and unit of work alone. *)
Lemma grows_same st st' :
  st_pending st' = st_pending st ->
  visitor_tbl (st_world st') = visitor_tbl (st_world st) ->
  contact_tbl (st_world st') = contact_tbl (st_world st) ->
  grows P Q st st'.
Proof.
  intros H1 H2 H3 Hp. rewrite H1, H2, H3. apply grows_refl, Hp.
Qed.

Lemma at_ret {A} (a : A) : keeps_at r (grows P Q) (ret a).
Proof. intros E st. apply grows_refl. Qed.

Lemma at_render_template name : keeps_at r (grows P Q) (render_template name).
Proof.
  intros E st. unfold render_template.
  destruct (template_fault E name); apply grows_refl.
Qed.

Lemma at_send_static_file f : keeps_at r (grows P Q) (send_static_file f).
Proof. intros E st. apply grows_refl. Qed.

Lemma at_bind {A B} (m : M A) (k : A -> M B) :
  keeps_at r (grows P Q) m -> (forall a, keeps_at r (grows P Q) (k a)) ->
  keeps_at r (grows P Q) (bind m k).
Proof.
  intros Hm Hk E st. unfold bind. specialize (Hm E st).
  destruct (m E r st) as [[a|e] st1]; simpl in *; [|assumption].
  eapply grows_trans; [exact Hm | apply Hk].
Qed.

Lemma at_try_except {A} (body : M A) (handler : exn -> M A) :
  keeps_at r (grows P Q) body -> (forall e, keeps_at r (grows P Q) (handler e)) ->
  keeps_at r (grows P Q) (try_except body handler).
Proof.
  intros Hb Hh E st. unfold try_except. specialize (Hb E st).
  destruct (body E r st) as [[a|e] st1]; simpl in *; [assumption|].
  eapply grows_trans; [exact Hb | apply Hh].
Qed.

(** The request a handler reads is the request being handled. *)
Lemma at_the_request {B} (k : request.t -> M B) :
  keeps_at r (grows P Q) (k r) -> keeps_at r (grows P Q) (bind the_request k).
Proof. intros Hk E st. exact (Hk E st). Qed.

Lemma at_lift_result {A} (x : exn + A) : keeps_at r (grows P Q) (lift_result x).
Proof. destruct x; intros E st; apply grows_refl. Qed.

Lemma at_logger level text : keeps_at r (grows P Q) (logger level text).
Proof. intros E st. apply grows_same; reflexivity. Qed.

Lemma at_uuid4 : keeps_at r (grows P Q) uuid4.
Proof. intros E st. apply grows_same; reflexivity. Qed.

Lemma at_datetime_now : keeps_at r (grows P Q) datetime_now.
Proof. intros E st. apply grows_same; reflexivity. Qed.

Lemma at_session_get k : keeps_at r (grows P Q) (session_get k).
Proof. intros E st. apply grows_refl. Qed.

Lemma at_session_set k v : keeps_at r (grows P Q) (session_set k v).
Proof. intros E st. apply grows_same; reflexivity. Qed.

Lemma at_db_query {A} (q : world -> A) : keeps_at r (grows P Q) (db_query q).
Proof.
  intros E st. unfold db_query.
  destruct (fault_at E (db_ops (st_world st))); apply grows_same; reflexivity.
Qed.

Lemma at_db_query_now {A} (q : Z -> world -> A) : keeps_at r (grows P Q) (db_query_now q).
Proof.
  intros E st. unfold db_query_now.
  destruct (fault_at E (db_ops (st_world st))); apply grows_same; reflexivity.
Qed.

Lemma at_db_add x : entity_ok P Q x -> keeps_at r (grows P Q) (db_add x).
Proof.
  intros Hx E st Hp. cbn. split; [|split; exists []; rewrite app_nil_r; split;
                                     (reflexivity || constructor)].
  apply Forall_app. split; [exact Hp | repeat constructor; exact Hx].
Qed.

Lemma at_db_rollback : keeps_at r (grows P Q) db_rollback.
Proof.
  intros E st Hp. cbn. split; [constructor|].
  split; exists []; rewrite app_nil_r; split; (reflexivity || constructor).
Qed.

(** Flushing objects that are all right appends rows that are all right. *)
Lemma flush_grows E xs : forall w w',
  Forall (entity_ok P Q) xs ->
  flush E xs w = inr w' ->
  (exists vnew, visitor_tbl w' = visitor_tbl w ++ vnew /\ Forall P vnew)
  /\ (exists cnew, contact_tbl w' = contact_tbl w ++ cnew /\ Forall Q cnew).
Proof.
  induction xs as [|x xs IH]; intros w w' Hok Hfl; cbn [flush] in Hfl.
  - injection Hfl as <-.
    split; exists []; rewrite app_nil_r; split; (reflexivity || constructor).
  - apply Forall_cons in Hok. destruct Hok as [Hx Hxs].
    destruct (insert_row E x w) as [e|w1] eqn:Hins; [discriminate|].
    destruct (IH w1 w' Hxs Hfl) as ((v2 & Hv2 & Hf2) & (c2 & Hc2 & Hg2)).
    destruct x as [sid ip ua pg act ref hst mth plat brw | [nm|] [em|] [msg|] ip];
      cbn in Hins; try discriminate; injection Hins as <-; cbn in Hv2, Hc2.
    + split.
      * eexists (_ :: v2). rewrite Hv2, <- app_assoc. split; [reflexivity|].
        constructor; [apply Hx | exact Hf2].
      * exists c2. split; assumption.
    + split.
      * exists v2. split; assumption.
      * eexists (_ :: c2). rewrite Hc2, <- app_assoc. split; [reflexivity|].
        constructor; [apply Hx | exact Hg2].
Qed.

Lemma at_db_commit : keeps_at r (grows P Q) db_commit.
Proof.
  intros E st Hp. unfold db_commit.
  destruct (fault_at E (db_ops (st_world st))).
  - apply (grows_same st); [reflexivity..|exact Hp].
  - destruct (flush E (st_pending st) (tick_db (st_world st))) as [e|w'] eqn:Hfl.
    + apply (grows_same st); [reflexivity..|exact Hp].
    + cbn. split; [constructor|].
      exact (flush_grows E _ _ _ Hp Hfl).
Qed.

End Grows.

Lemma match_route_contact path :
  match_route path = Some ep_contact -> path = "/contact".
Proof.
  unfold match_route.
  repeat match goal with
         | |- context [String.eqb path ?s] =>
             let H := fresh "H" in destruct (String.eqb path s) eqn:H
         end; try discriminate.
  - intros _. apply String.eqb_eq. assumption.
  - destruct (Py.startswith path "/static/"); [|discriminate].
    destruct (drop_chars 8 path) as [|c t]; [discriminate|].
    destruct (Ascii.eqb c "/"); discriminate.
Qed.

Section GrowsHandlers.
Context (r : request.t) (P : Visitor.t -> Prop) (Q : ContactMessage.t -> Prop).
Context (HP : forall id sid ts page action,
  P (Visitor.mk id sid (get_client_ip r) (Some (request.user_agent r)) ts page (Some action)
       (request.referrer r) (Some (request.host r)) (Some (request.method r))
       (Some (snd (parse_user_agent (request.user_agent r))))
       (Some (fst (parse_user_agent (request.user_agent r)))) None None)).
Context (HQ : is_contact_post r ->
  forall id nm em msg ts, Q (ContactMessage.mk id nm em msg (get_client_ip r) ts false)).

(** Steps through a handler, leaving the [db_add] side conditions. *)
Ltac at_step :=
  repeat match goal with
         | |- keeps_at _ _ (bind the_request _) => apply at_the_request; cbv beta
         | |- keeps_at _ _ (bind _ _) => apply at_bind; [|intros ?]
         | |- keeps_at _ _ (try_except _ _) => apply at_try_except; [|intros ?]
         | |- keeps_at _ _ (ret _) => apply at_ret
         | |- keeps_at _ _ (render_template _) => apply at_render_template
         | |- keeps_at _ _ (send_static_file _) => apply at_send_static_file
         | |- keeps_at _ _ (logger _ _) => apply at_logger
         | |- keeps_at _ _ uuid4 => apply at_uuid4
         | |- keeps_at _ _ datetime_now => apply at_datetime_now
         | |- keeps_at _ _ (session_get _) => apply at_session_get
         | |- keeps_at _ _ (session_set _ _) => apply at_session_set
         | |- keeps_at _ _ (db_query _) => apply at_db_query
         | |- keeps_at _ _ (db_query_now _) => apply at_db_query_now
         | |- keeps_at _ _ db_commit => apply at_db_commit
         | |- keeps_at _ _ db_rollback => apply at_db_rollback
         | |- keeps_at _ _ (lift_result _) => apply at_lift_result
         end.

Lemma at_log_visitor page action : keeps_at r (grows P Q) (log_visitor page action).
Proof.
  unfold log_visitor. apply at_try_except; [|intros e; at_step].
  apply at_the_request. cbv beta zeta.
  destruct (parse_user_agent (request.user_agent r)) as [b pl] eqn:Hua.
  at_step. apply at_db_add. intros id ts.
  exact (HP id _ ts page action).
Qed.

Lemma at_before_request : keeps_at r (grows P Q) before_request.
Proof.
  unfold before_request. at_step.
  - destruct a; at_step.
  - destruct (negb _ && negb _); [apply at_log_visitor | apply at_ret].
Qed.

Lemma at_contact_submit : is_contact_post r -> keeps_at r (grows P Q) contact_submit.
Proof.
  intros Hpost. unfold contact_submit. apply at_try_except; [|intros e; at_step].
  apply at_the_request. cbv beta zeta. at_step.
  - apply at_db_add. cbn.
    destruct (request.form r !! "name"), (request.form r !! "email"),
      (request.form r !! "message"); try exact I.
    intros id ts. apply HQ, Hpost.
  - apply at_log_visitor.
Qed.

Lemma at_view ep :
  match_route (request.path r) = Some ep ->
  keeps_at r (grows P Q) (view ep (request.method r)).
Proof.
  intros Hroute. unfold view.
  destruct (String.eqb (request.method r) "OPTIONS"); [apply at_ret|].
  destruct (is_read_method (request.method r)).
  - destruct ep;
      unfold index, portfolio, about, contact, admin, admin_logs, admin_stats,
        admin_messages, export_logs;
      at_step; apply at_log_visitor.
  - destruct ep; try apply at_ret.
    destruct (String.eqb (request.method r) "POST") eqn:Hm; [|apply at_ret].
    apply at_contact_submit. split.
    + apply match_route_contact, Hroute.
    + apply String.eqb_eq, Hm.
Qed.

Lemma at_full_dispatch_request : keeps_at r (grows P Q) full_dispatch_request.
Proof.
  unfold full_dispatch_request. apply at_bind; [apply at_before_request|intros _].
  unfold dispatch_request. apply at_the_request. cbv beta.
  destruct (match_route (request.path r)) as [ep|] eqn:Hroute;
    [apply at_view, Hroute | apply at_ret].
Qed.

(** One request: both tables keep their rows and gain rows satisfying [P]
    and [Q]. *)
Lemma handle_request_grows E cookie w :
  (exists vnew,
     visitor_tbl (snd (handle_request E r cookie w)) = visitor_tbl w ++ vnew
     /\ Forall P vnew)
  /\ (exists cnew,
        contact_tbl (snd (handle_request E r cookie w)) = contact_tbl w ++ cnew
        /\ Forall Q cnew).
Proof.
  pose proof (at_full_dispatch_request E (mkState w [] cookie)) as H.
  unfold handle_request.
  destruct (full_dispatch_request E r (mkState w [] cookie)) as [[resp|e] st'];
    cbn [snd st_world] in *; exact (proj2 (H (List.Forall_nil _))).
Qed.

End GrowsHandlers.

Lemma new_row_consistent r id sid ts page action :
  row_consistent
    (Visitor.mk id sid (get_client_ip r) (Some (request.user_agent r)) ts page (Some action)
       (request.referrer r) (Some (request.host r)) (Some (request.method r))
       (Some (snd (parse_user_agent (request.user_agent r))))
       (Some (fst (parse_user_agent (request.user_agent r)))) None None).
Proof.
  split; [exists (request.user_agent r); split; [|split]; reflexivity|].
  split; [discriminate|]. split; reflexivity.
Qed.

Lemma new_row_describes r id sid ts page action :
  describes r
    (Visitor.mk id sid (get_client_ip r) (Some (request.user_agent r)) ts page (Some action)
       (request.referrer r) (Some (request.host r)) (Some (request.method r))
       (Some (snd (parse_user_agent (request.user_agent r))))
       (Some (fst (parse_user_agent (request.user_agent r)))) None None).
Proof. unfold describes. cbn [Visitor.ip_address Visitor.user_agent Visitor.referrer
  Visitor.host Visitor.method Visitor.browser Visitor.platform]. tauto. Qed.

(** X1: handling a request never removes or changes a row: the Visitor and
    ContactMessage tables after the request are the tables before it with
    rows appended; and ContactMessage rows are appended only by a POST to
    /contact. *)
Theorem tables_append_only E r cookie w :
  exists vnew cnew,
    visitor_tbl (snd (handle_request E r cookie w)) = visitor_tbl w ++ vnew
    /\ contact_tbl (snd (handle_request E r cookie w)) = contact_tbl w ++ cnew
    /\ (cnew <> [] -> is_contact_post r).
Proof.
  destruct (handle_request_grows r (fun _ => True) (fun _ => is_contact_post r)
              (fun _ _ _ _ _ => I) (fun H _ _ _ _ _ => H) E cookie w)
    as ((vnew & Hv & _) & (cnew & Hc & Hq)).
  exists vnew, cnew. split; [exact Hv|]. split; [exact Hc|].
  intros Hne. destruct cnew as [|c rest]; [congruence|].
  apply Forall_cons in Hq. apply Hq.
Qed.

(** X2: every Visitor row written while a request is handled records that
    request: the client IP that [get_client_ip] computes, the user agent,
    referrer, host and method of the request, and the browser and platform
    that [parse_user_agent] gives for its user agent; every ContactMessage
    row written stores the same client IP and is unread. *)
Theorem rows_describe_request E r cookie w :
  Forall (describes r) (rows_added E r cookie w)
  /\ Forall (fun c => ContactMessage.ip_address c = get_client_ip r
                      /\ ContactMessage.read c = false)
       (drop (length (contact_tbl w)) (contact_tbl (snd (handle_request E r cookie w)))).
Proof.
  destruct (handle_request_grows r (describes r)
              (fun c => ContactMessage.ip_address c = get_client_ip r
                        /\ ContactMessage.read c = false)
              (new_row_describes r)
              (fun _ _ _ _ _ _ => conj eq_refl eq_refl) E cookie w)
    as ((vnew & Hv & HP) & (cnew & Hc & HQ)).
  unfold rows_added. rewrite Hv, Hc, !drop_app_length. split; assumption.
Qed.

(** X3: if every row of the Visitor table has browser and platform columns
    that are the classification of its own user agent column, an action
    tag, and empty country and city columns, then so has every row after
    any request: the derived columns are never out of step and the
    reserved columns are never filled. *)
Theorem visitor_rows_stay_consistent E r cookie w :
  Forall row_consistent (visitor_tbl w) ->
  Forall row_consistent (visitor_tbl (snd (handle_request E r cookie w))).
Proof.
  intros Hw.
  destruct (handle_request_grows r row_consistent (fun _ => True)
              (new_row_consistent r) (fun _ _ _ _ _ _ => I) E cookie w)
    as ((vnew & Hv & HP) & _).
  rewrite Hv. apply Forall_app. split; assumption.
Qed.

Lemma visitor_rows_stay_consistent_witness :
  Forall row_consistent (visitor_tbl shared_ip_world)
  /\ Forall row_consistent
       (visitor_tbl (snd (handle_request healthy_env get_portfolio ∅ shared_ip_world)))
  /\ length (visitor_tbl (snd (handle_request healthy_env get_portfolio ∅ shared_ip_world)))
     = 4%nat.
Proof.
  assert (H : Forall row_consistent (visitor_tbl shared_ip_world)).
  { repeat apply List.Forall_cons; try apply List.Forall_nil;
      (split; [exists "curl/8.0"; repeat split | repeat split; discriminate]). }
  split; [exact H|]. split; [|vm_compute; reflexivity].
  exact (visitor_rows_stay_consistent healthy_env get_portfolio ∅ shared_ip_world H).
Defined.

(** X4: no code path marks a contact message as read: if every stored
    message is unread before a request, every stored message is unread
    after it. *)
Theorem messages_stay_unread E r cookie w :
  Forall (fun c => ContactMessage.read c = false) (contact_tbl w) ->
  Forall (fun c => ContactMessage.read c = false)
    (contact_tbl (snd (handle_request E r cookie w))).
Proof.
  intros Hw.
  destruct (handle_request_grows r (fun _ => True)
              (fun c => ContactMessage.read c = false)
              (fun _ _ _ _ _ => I) (fun _ _ _ _ _ _ => eq_refl) E cookie w)
    as (_ & (cnew & Hc & HQ)).
  rewrite Hc. apply Forall_app. split; assumption.
Qed.

Lemma messages_stay_unread_witness :
  Forall (fun c => ContactMessage.read c = false) (contact_tbl one_message_world)
  /\ Forall (fun c => ContactMessage.read c = false)
       (contact_tbl (snd (handle_request healthy_env post_contact ∅ one_message_world)))
  /\ length (contact_tbl (snd (handle_request healthy_env post_contact ∅ one_message_world)))
     = 2%nat.
Proof.
  assert (H : Forall (fun c => ContactMessage.read c = false)
                (contact_tbl one_message_world))
    by (repeat constructor).
  split; [exact H|]. split; [|vm_compute; reflexivity].
  exact (messages_stay_unread healthy_env post_contact ∅ one_message_world H).
Defined.

(** ** No exception leaves a handler *)

Lemma returns_ret {A} (a : A) : returns (ret a).
Proof. intros E r st. eexists _, _. reflexivity. Qed.

Lemma returns_bind {A B} (m : M A) (k : A -> M B) :
  returns m -> (forall a, returns (k a)) -> returns (bind m k).
Proof.
  intros Hm Hk E r st. unfold bind.
  destruct (Hm E r st) as (a & st1 & ->). apply Hk.
Qed.

(** A [try] block returns as soon as its [except] branch does. *)
Lemma returns_try_except {A} (body : M A) (handler : exn -> M A) :
  (forall e, returns (handler e)) -> returns (try_except body handler).
Proof.
  intros Hh E r st. unfold try_except.
  destruct (body E r st) as [[a|e] st1]; [eexists _, _; reflexivity | apply Hh].
Qed.

Lemma returns_logger level text : returns (logger level text).
Proof. intros E r st. eexists _, _. reflexivity. Qed.

Lemma returns_session_get k : returns (session_get k).
Proof. intros E r st. eexists _, _. reflexivity. Qed.

Lemma returns_session_set k v : returns (session_set k v).
Proof. intros E r st. eexists _, _. reflexivity. Qed.

Lemma returns_uuid4 : returns uuid4.
Proof. intros E r st. eexists _, _. reflexivity. Qed.

Lemma returns_the_request : returns the_request.
Proof. intros E r st. eexists _, _. reflexivity. Qed.

Lemma returns_db_rollback : returns db_rollback.
Proof. intros E r st. eexists _, _. reflexivity. Qed.

Lemma returns_log_visitor page action : returns (log_visitor page action).
Proof.
  unfold log_visitor. apply returns_try_except. intros e.
  apply returns_bind; [apply returns_logger | intros _; apply returns_db_rollback].
Qed.

Lemma returns_error_branch text (resp : response) :
  returns (bind (logger "ERROR" text) (fun _ => ret resp)).
Proof. apply returns_bind; [apply returns_logger | intros _; apply returns_ret]. Qed.

Lemma returns_before_request : returns before_request.
Proof.
  unfold before_request.
  apply returns_bind; [apply returns_session_get | intros sid].
  apply returns_bind.
  { destruct sid; [apply returns_ret|].
    apply returns_bind; [apply returns_uuid4 | intros u; apply returns_session_set]. }
  intros _. apply returns_bind; [apply returns_the_request | intros r0].
  destruct (negb _ && negb _); [apply returns_log_visitor | apply returns_ret].
Qed.

Lemma returns_send_static_file f : returns (send_static_file f).
Proof. intros E r st. eexists _, _. reflexivity. Qed.

Lemma options_not_read_method m :
  String.eqb m "OPTIONS" = true -> is_read_method m = false.
Proof. intros H. apply String.eqb_eq in H. subst. reflexivity. Qed.

(** A view returns, unless it is a page view whose template fails: the
    call of [render_template] is the last statement of the view, outside
    any [try]. *)
Lemma view_outcome E r st ep :
  match (if is_read_method (request.method r) then page_template ep else None) with
  | Some name =>
      exists st',
        view ep (request.method r) E r st
        = (match template_fault E name with
           | Some msg => Raise (TemplateError msg)
           | None => Ok (Rendered name)
           end, st')
  | None => exists resp st', view ep (request.method r) E r st = (Ok resp, st')
  end.
Proof.
  assert (Hpage : forall page action name,
    exists st',
      bind (log_visitor page action) (fun _ => render_template name) E r st
      = (match template_fault E name with
         | Some msg => Raise (TemplateError msg)
         | None => Ok (Rendered name)
         end, st')).
  { intros page action name. unfold bind.
    destruct (returns_log_visitor page action E r st) as ([] & st1 & ->).
    unfold render_template. exists st1. destruct (template_fault E name); reflexivity. }
  assert (Hplain : forall name,
    exists st',
      render_template name E r st
      = (match template_fault E name with
         | Some msg => Raise (TemplateError msg)
         | None => Ok (Rendered name)
         end, st')).
  { intros name. unfold render_template. exists st.
    destruct (template_fault E name); reflexivity. }
  unfold view.
  destruct (String.eqb (request.method r) "OPTIONS") eqn:Hopt.
  { rewrite (options_not_read_method _ Hopt). apply returns_ret. }
  destruct (is_read_method (request.method r)).
  - destruct ep; cbn [page_template];
      first [ apply Hplain
            | apply Hpage
            | apply returns_send_static_file
            | apply returns_try_except; intros e; apply returns_error_branch ].
  - destruct ep; try apply returns_ret.
    destruct (String.eqb (request.method r) "POST"); [|apply returns_ret].
    unfold contact_submit. apply returns_try_except. intros e. apply returns_error_branch.
Qed.

(** X5: no failure of the storage engine leaves the request cycle, and the
    only exception that does is the template engine's.  A GET or HEAD
    routed to one of the five page views whose template fails to load or
    render raises that error, [render_template] being called outside any
    [try]; every other request, whatever the storage engine does, is
    answered by [before_request] followed by the view with a response. *)
Theorem only_template_errors_escape E r st :
  (template_failure E r = None ->
   exists resp st', full_dispatch_request E r st = (Ok resp, st'))
  /\ (forall msg, template_failure E r = Some msg ->
        exists st', full_dispatch_request E r st = (Raise (TemplateError msg), st')).
Proof.
  unfold full_dispatch_request, bind.
  destruct (returns_before_request E r st) as ([] & st1 & ->).
  unfold dispatch_request, bind, the_request, template_failure.
  destruct (match_route (request.path r)) as [ep|].
  - pose proof (view_outcome E r st1 ep) as Hv.
    destruct (is_read_method (request.method r)).
    + destruct (page_template ep) as [name|].
      * destruct Hv as (st' & ->).
        destruct (template_fault E name) as [msg|].
        -- split; [discriminate|]. intros msg' [= <-]. eauto.
        -- split; [eauto | discriminate].
      * destruct Hv as (resp & st' & ->). split; [eauto | discriminate].
    + destruct Hv as (resp & st' & ->). split; [eauto | discriminate].
  - split; [|destruct (is_read_method _); discriminate].
    intros _. eexists _, _. reflexivity.
Qed.

(** Without templates a page view is answered 500 and its visit is logged
    all the same; the JSON endpoints answer as usual. *)
Lemma only_template_errors_escape_witness :
  (exists st',
     full_dispatch_request no_templates_env get_portfolio (mkState empty_world [] ∅)
     = (Raise (TemplateError "portfolio.html"), st')
     /\ map Visitor.action (visitor_tbl (st_world st')) = [Some "VISIT"; Some "PORTFOLIO_VIEW"])
  /\ (exists resp st',
        full_dispatch_request no_templates_env post_contact (mkState empty_world [] ∅)
        = (Ok resp, st')).
Proof.
  destruct (only_template_errors_escape no_templates_env get_portfolio
              (mkState empty_world [] ∅)) as [_ H1].
  destruct (only_template_errors_escape no_templates_env post_contact
              (mkState empty_world [] ∅)) as [H2 _].
  split.
  - destruct (H1 "portfolio.html" eq_refl) as (st' & Hrun).
    exists st'. split; [exact Hrun|].
    assert (Hst : st' = snd (full_dispatch_request no_templates_env get_portfolio
                               (mkState empty_world [] ∅)))
      by (rewrite Hrun; reflexivity).
    rewrite Hst. vm_compute. reflexivity.
  - exact (H2 eq_refl).
Defined.

(** ** The contact form with a missing field *)

(** A flush that contains a message without one of its required fields
    fails, whatever else is flushed. *)
Lemma flush_missing_field E nm em msg ip xs : forall w,
  nm = None \/ em = None \/ msg = None ->
  exists e, flush E (xs ++ [NewContactMessage nm em msg ip]) w = inl e.
Proof.
  induction xs as [|x xs IH]; intros w Hmiss; cbn [app flush].
  - destruct nm, em, msg; cbn; eauto.
    destruct Hmiss as [H | [H | H]]; discriminate H.
  - destruct (insert_row E x w); [eauto | apply IH, Hmiss].
Qed.

Lemma contact_submit_rejects E r st :
  field_missing r ->
  exists st' text,
    contact_submit E r st = (Ok (Jsonify contact_error), st')
    /\ visitor_tbl (st_world st') = visitor_tbl (st_world st)
    /\ contact_tbl (st_world st') = contact_tbl (st_world st)
    /\ st_session st' = st_session st
    /\ last (app_log (st_world st'))
       = Some ("ERROR", "Error saving contact message: " +:+ text).
Proof.
  intros Hmiss. destruct st as [w p s].
  unfold contact_submit, try_except.
  unfold bind at 1 2 3. unfold the_request at 1, db_add at 1, db_commit at 1.
  cbn [st_world st_pending st_session set_world set_pending set_session].
  destruct (fault_at E (db_ops w)) as [m|].
  - eexists _, _. split; [reflexivity|]. cbn. repeat split. apply last_snoc.
  - destruct (flush_missing_field E (request.form r !! "name") (request.form r !! "email")
                (request.form r !! "message") (get_client_ip r) p (tick_db w) Hmiss)
      as (e & ->).
    eexists _, _. split; [reflexivity|]. cbn. repeat split. apply last_snoc.
Qed.

(** X6: a POST to /contact that lacks the name, the email or the message
    field is answered with the error payload; no ContactMessage row is
    stored, and no Visitor row is written for the submission: the rows added
    are at most the VISIT row of the middleware. *)
Theorem contact_post_missing_field E r cookie w :
  request.path r = "/contact" ->
  request.method r = "POST" ->
  field_missing r ->
  fst (fst (handle_request E r cookie w)) = Jsonify contact_error
  /\ contact_tbl (snd (handle_request E r cookie w)) = contact_tbl w
  /\ (length (rows_added E r cookie w) <= 1)%nat
  /\ Forall (fun v => Visitor.action v = Some "VISIT") (rows_added E r cookie w).
Proof.
  intros Hpath Hmeth Hmiss.
  destruct (before_request_effect E r cookie w)
    as (st1 & sid & mw & Hrun & B1 & B2 & _ & _ & B5 & B6 & B7).
  assert (Hl : logged_path r = true) by (unfold logged_path; rewrite Hpath; reflexivity).
  rewrite Hl in B7. apply log_outcome_length in B7. destruct B7 as (L1 & L2 & _).
  destruct (contact_submit_rejects E r st1 Hmiss) as (st2 & text & Hsub & S1 & S2 & _).
  assert (Hh : handle_request E r cookie w
               = (Jsonify contact_error, st_session st2, st_world st2)).
  { unfold handle_request, full_dispatch_request, bind. rewrite Hrun.
    unfold dispatch_request, bind, the_request. rewrite Hpath.
    change (match_route "/contact") with (Some ep_contact). cbn iota.
    rewrite Hmeth. change (view ep_contact "POST") with contact_submit.
    rewrite Hsub. reflexivity. }
  unfold rows_added. rewrite Hh. cbn [fst snd].
  rewrite S1, S2, B5, B6, drop_app_length.
  split; [reflexivity|]. split; [reflexivity|]. split; [exact L1|].
  apply Forall_forall. intros v Hv. apply (L2 v Hv).
Qed.

Lemma contact_post_missing_field_witness :
  fst (fst (handle_request healthy_env post_contact_no_email ∅ empty_world))
  = Jsonify contact_error
  /\ contact_tbl (snd (handle_request healthy_env post_contact_no_email ∅ empty_world)) = []
  /\ (length (rows_added healthy_env post_contact_no_email ∅ empty_world) <= 1)%nat
  /\ Forall (fun v => Visitor.action v = Some "VISIT")
       (rows_added healthy_env post_contact_no_email ∅ empty_world).
Proof.
  exact (contact_post_missing_field healthy_env post_contact_no_email ∅ empty_world
           eq_refl eq_refl (or_intror (or_introl eq_refl))).
Defined.

(** ** Read-only endpoints *)

(** X7: the four admin endpoints only read: whether their queries succeed
    or raise, the Visitor and ContactMessage tables, the unit of work and
    the session are after the call what they were before. *)
Theorem admin_endpoints_read_only E r st :
  unchanged st (snd (admin_logs E r st))
  /\ unchanged st (snd (admin_stats E r st))
  /\ unchanged st (snd (admin_messages E r st))
  /\ unchanged st (snd (export_logs E r st)).
Proof.
  split; [apply unchanged_admin_logs|]. split; [apply unchanged_admin_stats|].
  split; [apply unchanged_admin_messages | apply unchanged_export_logs].
Qed.

(** ** Logging attempts *)

(** X8: one call of the Visit Logger makes exactly one attempt on the
    storage engine, whether the commit succeeds or raises: a failed write
    is not tried again. *)
Theorem log_visitor_single_attempt E r st page action :
  db_ops (st_world (snd (log_visitor page action E r st))) = S (db_ops (st_world st)).
Proof. apply log_visitor_ops. Qed.

Ltac route_inv path :=
  unfold match_route;
  repeat match goal with
         | |- context [String.eqb path ?s] =>
             let H := fresh "H" in destruct (String.eqb path s) eqn:H
         end; try discriminate;
  [ intros _; apply String.eqb_eq; assumption
  | destruct (Py.startswith path "/static/"); [|discriminate];
    destruct (drop_chars 8 path) as [|c t]; [discriminate|];
    destruct (Ascii.eqb c "/"); discriminate ].

Lemma match_route_portfolio path :
  match_route path = Some ep_portfolio -> path = "/portfolio".
Proof. route_inv path. Qed.

Lemma match_route_about path :
  match_route path = Some ep_about -> path = "/about".
Proof. route_inv path. Qed.

Lemma read_method_not_options m :
  is_read_method m = true -> String.eqb m "OPTIONS" = false.
Proof.
  unfold is_read_method. intros H. apply orb_true_iff in H.
  destruct H as [H | H]; apply String.eqb_eq in H; subst; reflexivity.
Qed.

(** A page view is the Visit Logger followed by the template. *)
Lemma view_action_page r pg act :
  is_read_method (request.method r) = true ->
  view_action r = Some (pg, act) ->
  exists ep template,
    match_route (request.path r) = Some ep
    /\ view ep (request.method r)
       = bind (log_visitor pg act) (fun _ => render_template template)
    /\ logged_path r = true.
Proof.
  intros Hread. pose proof (read_method_not_options _ Hread) as Hopt.
  unfold view_action. destruct (match_route (request.path r)) as [ep|] eqn:Hroute;
    [|discriminate].
  unfold own_action. rewrite Hopt, Hread.
  destruct ep; try discriminate; intros [= <- <-]; eexists _, _;
    (split; [reflexivity|]); (split; [unfold view; rewrite Hopt, Hread; reflexivity|]);
    unfold logged_path;
    first [ rewrite (match_route_portfolio _ Hroute)
          | rewrite (match_route_about _ Hroute)
          | rewrite (match_route_contact _ Hroute) ]; reflexivity.
Qed.

(** X9: for a GET or HEAD of /portfolio, /about or /contact the two logging
    attempts of the request are independent: the VISIT row of the
    middleware is written exactly when the engine accepts the first
    operation of the request, the row of the view exactly when it accepts
    the second, so a failed first attempt does not prevent the second. *)
Theorem page_view_attempts E r cookie w pg act :
  is_read_method (request.method r) = true ->
  view_action r = Some (pg, act) ->
  map Visitor.action (rows_added E r cookie w)
  = attempt E (db_ops w) "VISIT" ++ attempt E (S (db_ops w)) act.
Proof.
  intros Hread Hact.
  destruct (view_action_page r pg act Hread Hact) as (ep & template & Hroute & Hview & Hl).
  destruct (before_request_effect E r cookie w)
    as (st1 & sid & mw & Hrun & B1 & B2 & _ & _ & B5 & _ & B7).
  pose proof (before_request_ops E r (mkState w [] cookie) Hl) as Hops.
  rewrite Hrun in Hops. cbn [snd st_world] in Hops.
  rewrite Hl in B7. apply log_outcome_actions in B7. cbn [st_world] in B7.
  destruct (page_view_effect E r st1 pg act template sid B1 B2)
    as (st2 & new & Hpage & _ & _ & _ & P4 & P5).
  apply log_outcome_actions in P5. rewrite Hops in P5.
  unfold rows_added, handle_request, full_dispatch_request, bind. rewrite Hrun.
  unfold dispatch_request, bind, the_request. rewrite Hroute, Hview.
  rewrite Hpage.
  destruct (template_fault E template);
    cbn [snd st_world log_exception add_log visitor_tbl];
    rewrite P4, B5, <- app_assoc, drop_app_length, map_app, B7, P5; reflexivity.
Qed.

Lemma page_view_attempts_witness :
  map Visitor.action (rows_added first_fails_env get_portfolio ∅ empty_world)
  = [Some "PORTFOLIO_VIEW"].
Proof.
  exact (page_view_attempts first_fails_env get_portfolio ∅ empty_world
           "/portfolio" "PORTFOLIO_VIEW" eq_refl eq_refl).
Defined.

(** ** The classifier and the IP reader again *)

Lemma lower_char_idem c : Py.lower_char (Py.lower_char c) = Py.lower_char c.
Proof. destruct c as [[] [] [] [] [] [] [] []]; vm_compute; reflexivity. Qed.

Lemma lower_idem s : Py.lower (Py.lower s) = Py.lower s.
Proof.
  induction s as [|c s IH]; [reflexivity|].
  cbn [Py.lower]. rewrite lower_char_idem, IH. reflexivity.
Qed.

(** X10: the classification does not depend on letter case: a user agent
    and its lowercase form get the same browser and platform, and so do any
    two user agents with the same lowercase form. *)
Theorem parse_user_agent_ignores_case :
  (forall ua, parse_user_agent (Py.lower ua) = parse_user_agent ua)
  /\ (forall a b, Py.lower a = Py.lower b -> parse_user_agent a = parse_user_agent b).
Proof.
  split.
  - intros ua. unfold parse_user_agent. rewrite !lower_ua, lower_idem. reflexivity.
  - intros a b H. unfold parse_user_agent. rewrite !lower_ua, H. reflexivity.
Qed.

(** X11: two branches of the classifier are shadowed by earlier tests.  A
    user agent that names linux, and neither windows nor mac, is Linux even
    when it names android, as Android user agents do; a user agent that
    names chrome, firefox or safari is never Edge even when it names edge,
    as the user agents of Edge do. *)
Theorem parse_user_agent_shadowed (ua : string) :
  (Py.str_in "linux" (Py.lower ua) = true ->
   Py.str_in "windows" (Py.lower ua) = false ->
   Py.str_in "mac" (Py.lower ua) = false ->
   snd (parse_user_agent ua) = "Linux")
  /\ (Py.str_in "chrome" (Py.lower ua) = true
      \/ Py.str_in "firefox" (Py.lower ua) = true
      \/ Py.str_in "safari" (Py.lower ua) = true ->
      fst (parse_user_agent ua) <> "Edge").
Proof.
  unfold parse_user_agent. rewrite lower_ua. split.
  - intros Hl Hw Hm. cbn [snd]. rewrite Hw, Hm, Hl. reflexivity.
  - intros H. cbn [fst].
    destruct (Py.str_in "chrome" (Py.lower ua)); [discriminate|].
    destruct (Py.str_in "firefox" (Py.lower ua)); [discriminate|].
    destruct (Py.str_in "safari" (Py.lower ua)); [discriminate|].
    destruct H as [H | [H | H]]; discriminate H.
Qed.

Lemma parse_user_agent_shadowed_witness :
  Py.str_in "android" (Py.lower android_ua) = true
  /\ snd (parse_user_agent android_ua) = "Linux"
  /\ Py.str_in "edge" (Py.lower legacy_edge_ua) = true
  /\ fst (parse_user_agent legacy_edge_ua) <> "Edge".
Proof.
  split; [vm_compute; reflexivity|]. split.
  - apply (proj1 (parse_user_agent_shadowed android_ua)); vm_compute; reflexivity.
  - split; [vm_compute; reflexivity|].
    apply (proj2 (parse_user_agent_shadowed legacy_edge_ua)). left. vm_compute. reflexivity.
Defined.

Lemma first_value_no_sep sep s :
  Py.str_in (String sep EmptyString) (first_value sep s) = false.
Proof.
  induction s as [|c t IH]; [reflexivity|].
  cbn [first_value]. destruct (Ascii.eqb c sep) eqn:Hc; [reflexivity|].
  cbn [Py.str_in Py.startswith]. rewrite IH.
  rewrite Ascii.eqb_sym, Hc. reflexivity.
Qed.

Lemma first_value_prefix sep s :
  s = first_value sep s
  \/ exists rest, s = first_value sep s +:+ String sep rest.
Proof.
  induction s as [|c t IH]; [left; reflexivity|].
  cbn [first_value]. destruct (Ascii.eqb c sep) eqn:Hc.
  - apply Ascii.eqb_eq in Hc. subst. right. exists t. reflexivity.
  - destruct IH as [IH | (rest & IH)].
    + left. congruence.
    + right. exists rest.
      change (String c (first_value sep t) +:+ String sep rest)
        with (String c (first_value sep t +:+ String sep rest)).
      congruence.
Qed.

(** X12: when the forwarded-for header is present and not empty, the
    client IP is the part of the header before its first comma: it contains
    no comma, and the header is either that address alone or that address
    followed by a comma and the rest; nothing is trimmed or validated. *)
Theorem forwarded_ip_is_first_entry (r : request.t) (v : string) :
  request.environ r !! "HTTP_X_FORWARDED_FOR" = Some v ->
  v <> EmptyString ->
  Py.str_in "," (get_client_ip r) = false
  /\ (v = get_client_ip r \/ exists rest, v = get_client_ip r +:+ "," +:+ rest).
Proof.
  intros Hv Hne.
  assert (Hip : get_client_ip r = first_value comma v).
  { unfold get_client_ip. rewrite Hv. destruct v as [|c t]; [congruence|].
    unfold Py.truthy_opt, Py.truthy. rewrite split_head. reflexivity. }
  rewrite Hip. split; [apply (first_value_no_sep comma)|].
  apply (first_value_prefix comma).
Qed.

Lemma forwarded_ip_is_first_entry_witness :
  get_client_ip proxied_request = "198.51.100.4"
  /\ Py.str_in "," (get_client_ip proxied_request) = false.
Proof.
  split; [vm_compute; reflexivity|].
  apply (forwarded_ip_is_first_entry proxied_request "198.51.100.4, 10.0.0.2, 10.0.0.1");
    [reflexivity | discriminate].
Defined.

(** ** ORDER BY *)







(** ** Answers of the admin endpoints *)





Lemma distinct_from_length {A} `{EqDecision A} (l : list A) : forall seen,
  (length (distinct_from seen l) <= length l)%nat.
Proof.
  induction l as [|x l IH]; intros seen; cbn [distinct_from length]; [lia|].
  case_bool_decide; [specialize (IH seen) | specialize (IH (x :: seen)); cbn [length]]; lia.
Qed.

Lemma count_distinct_bounds w :
  0 <= count_distinct_ips w <= Z.of_nat (length (visitor_tbl w))
  /\ (count_distinct_ips w = 0 <-> visitor_tbl w = []).
Proof.
  unfold count_distinct_ips, distinct.
  pose proof (distinct_from_length (map Visitor.ip_address (visitor_tbl w)) []) as Hle.
  rewrite length_map in Hle. split; [lia|].
  destruct (visitor_tbl w) as [|v tbl]; [split; reflexivity|].
  cbn [map distinct_from]. rewrite bool_decide_eq_false_2 by (apply not_elem_of_nil).
  cbn [length]. split; [lia | discriminate].
Qed.

(** X15: the statistics view answers all or nothing: its body is either the
    error object alone or an object with exactly the six statistics; in the
    latter total_visits and total_messages are the sizes of the two tables,
    unique_visitors lies between 0 and total_visits and is 0 only for an
    empty table, top_pages has at most 10 entries and top_browsers at most
    5.  With an engine that accepts every query the answer is the full one. *)
Theorem admin_stats_all_or_nothing E r st :
  exists body st',
    admin_stats E r st = (Ok (Jsonify body), st')
    /\ (body = error_payload (recuperation +:+ "statistiques")
        \/ (json_keys body = stats_keys
            /\ exists u tp tb,
                 json_field "total_visits" body
                 = Some (JInt (Z.of_nat (length (visitor_tbl (st_world st)))))
                 /\ json_field "total_messages" body
                    = Some (JInt (Z.of_nat (length (contact_tbl (st_world st)))))
                 /\ json_field "unique_visitors" body = Some (JInt u)
                 /\ 0 <= u <= Z.of_nat (length (visitor_tbl (st_world st)))
                 /\ (u = 0 <-> visitor_tbl (st_world st) = [])
                 /\ json_field "top_pages" body = Some (JList tp)
                 /\ (length tp <= 10)%nat
                 /\ json_field "top_browsers" body = Some (JList tb)
                 /\ (length tb <= 5)%nat))
    /\ (storage_ok E -> json_keys body = stats_keys).
Proof.
  destruct st as [w p s].
  pose proof (count_distinct_bounds w) as [Hu1 Hu2].
  unfold admin_stats, try_except, bind, db_query, db_query_now, logger, ret.
  cbn [st_world st_pending st_session set_world tick_db db_ops].
  repeat match goal with
         | |- context [fault_at E ?n] =>
             let H := fresh "Hf" in destruct (fault_at E n) eqn:H
         end;
    (eexists _, _; split; [reflexivity|]; split;
     [| intros Hok; first [reflexivity | rewrite ?Hok in *; discriminate] ]).
  all: try (left; reflexivity).
  right. split; [reflexivity|].
  eexists _, _, _.
  split; [reflexivity|]. split; [reflexivity|]. split; [reflexivity|].
  split; [exact Hu1|]. split; [exact Hu2|].
  split; [reflexivity|].
  split; [unfold top_pages_query; rewrite length_map, length_take; lia|].
  split; [reflexivity|].
  unfold top_browsers_query. rewrite length_map, length_take. lia.
Qed.

(** ** The hourly histogram *)















(** ** The session cookie *)




(** ** GROUP BY, ORDER BY count DESC, LIMIT *)






Section Top.
Context {K : Type} `{EqDecision K} (col : Visitor.t -> K) (weight : K -> Z) (n : nat).


End Top.



